(** * A shallow embedding of the research agent

    The Python sources embedded here are [memory/conversation.py],
    [tools/web_search.py], [tools/web_scraper.py], [agent/tool_registry.py]
    and [agent/agent_loop.py].  Definitions keep the names of the source
    functions; the theorems about them follow the definitions. *)

From Stdlib Require Import List NArith ZArith Bool Lia String Ascii.
From Stdlib Require Import Numbers.DecimalString.
Import ListNotations.

Set Warnings "-register-all".

(** ** Python strings

    A Python [str] is a sequence of Unicode code points; [len] counts code
    points and slicing cuts between them.  We therefore model it as a list
    of code points, not as a byte string. *)

Module PyStr.

Definition codepoint := N.
Definition str := list codepoint.

(** String literals of the source that are pure ASCII are written [u "..."]. *)
Definition u (s : string) : str := map N_of_ascii (list_ascii_of_string s).

Definition SPACE : codepoint := 32%N.
Definition LF : codepoint := 10%N.
Definition CR : codepoint := 13%N.

Definition mem (c : codepoint) (l : list codepoint) : bool :=
  existsb (N.eqb c) l.

(** [str.isspace] on one code point, which is also the class [\s] of [re]
    on [str] patterns. *)
Definition isspace (c : codepoint) : bool :=
  ((9 <=? c) && (c <=? 13) || (28 <=? c) && (c <=? 32)
   || (8192 <=? c) && (c <=? 8202)
   || mem c [133; 160; 5760; 8232; 8233; 8239; 8287; 12288])%N.

(** The line boundaries of [str.splitlines]. *)
Definition islinebreak (c : codepoint) : bool :=
  ((10 <=? c) && (c <=? 13) || (28 <=? c) && (c <=? 30)
   || mem c [133; 8232; 8233])%N.

(** Truthiness of a string: [if s]. *)
Definition truthy (s : str) : bool :=
  match s with [] => false | _ :: _ => true end.

Fixpoint eqb (a b : str) : bool :=
  match a, b with
  | [], [] => true
  | x :: a', y :: b' => N.eqb x y && eqb a' b'
  | _, _ => false
  end.

Fixpoint dropwhile (p : codepoint -> bool) (s : str) : str :=
  match s with
  | [] => []
  | c :: rest => if p c then dropwhile p rest else s
  end.

Definition lstrip (s : str) : str := dropwhile isspace s.
Definition rstrip (s : str) : str := rev (dropwhile isspace (rev s)).

(** [s.strip()] *)
Definition strip (s : str) : str := rstrip (lstrip s).

(** [s.splitlines()]: [cur] holds the characters of the line being read,
    last one first.  A line is emitted at every boundary ([\r\n] counting as
    one), and at the end of the text when characters are pending. *)
Fixpoint splitlines_from (cur : str) (s : str) : list str :=
  match s with
  | [] => match cur with [] => [] | _ :: _ => [rev cur] end
  | c :: rest =>
      if islinebreak c then
        rev cur ::
          match rest with
          | d :: rest' =>
              if (c =? CR)%N && (d =? LF)%N then splitlines_from [] rest'
              else splitlines_from [] rest
          | [] => splitlines_from [] rest
          end
      else splitlines_from (c :: cur) rest
  end.

Definition splitlines (s : str) : list str := splitlines_from [] s.

(** [sep.join(parts)] *)
Fixpoint join (sep : str) (parts : list str) : str :=
  match parts with
  | [] => []
  | [p] => p
  | p :: rest => p ++ sep ++ join sep rest
  end.

(** [s.startswith(prefix)] *)
Fixpoint startswith (s prefix : str) {struct prefix} : bool :=
  match prefix, s with
  | [], _ => true
  | p :: prefix', c :: s' => N.eqb p c && startswith s' prefix'
  | _ :: _, [] => false
  end.

(** [needle in s] *)
Fixpoint contains (s needle : str) : bool :=
  startswith s needle ||
  match s with
  | [] => false
  | _ :: s' => contains s' needle
  end.

(** [str(n)] for an integer. *)
Definition of_Z (n : Z) : str := u (NilEmpty.string_of_int (Z.to_int n)).
Definition of_nat (n : nat) : str := of_Z (Z.of_nat n).

(** ASCII lower-casing, as [re.I] applies it to the letters of a pattern. *)
Definition lower (c : codepoint) : codepoint :=
  if ((65 <=? c) && (c <=? 90))%N then (c + 32)%N else c.

End PyStr.

Import PyStr.

(** ** tools/web_scraper.py: whitespace cleaning *)

Module CleanText.

(** [re.sub(r" {2,}", " ", text)]: every maximal run of two or more spaces
    is replaced by one space.  Reading left to right, a space that is
    followed by another space belongs to such a run and is dropped; the last
    space of the run is the one that stays. *)
Fixpoint sub_spaces (text : str) : str :=
  match text with
  | [] => []
  | c :: rest =>
      match rest with
      | d :: _ =>
          if (c =? SPACE)%N && (d =? SPACE)%N then sub_spaces rest
          else c :: sub_spaces rest
      | [] => [c]
      end
  end.

(** The loop over [lines] with its counter [blank_count]; the result is
    [cleaned_lines] in the order of the appends. *)
Fixpoint collapse_blank (blank_count : nat) (lines : list str) : list str :=
  match lines with
  | [] => []
  | line :: rest =>
      if negb (truthy line) then
        let blank_count := S blank_count in
        if Nat.leb blank_count 2 then line :: collapse_blank blank_count rest
        else collapse_blank blank_count rest
      else line :: collapse_blank 0 rest
  end.

(** The two list comprehensions at the head of [_clean_text]. *)
Definition stripped_lines (text : str) : list str :=
  map strip (splitlines text).

Definition nonblank_lines (text : str) : list str :=
  filter truthy (stripped_lines text).

(** How often the loop of [_clean_text] takes its [line == ""] branch. *)
Definition blank_branch_hits (lines : list str) : nat :=
  List.length (filter (fun line => negb (truthy line)) lines).

Definition _clean_text (text : str) : str :=
  let lines := nonblank_lines text in
  let cleaned_lines := collapse_blank 0 lines in
  let text := join [LF] cleaned_lines in
  let text := sub_spaces text in
  strip text.

End CleanText.

Import CleanText.

(** ** memory/conversation.py *)

Module Conversation.

(** The arguments the model passes with a tool call: a JSON object read
    only through [.get] on the three keys of the tool schemas. *)
Record ToolInput := {
  input_query : option str;
  input_num_results : option Z;
  input_url : option str
}.

(** The content blocks of a model response.  Blocks of any other type
    (thinking blocks and the like) carry no [text] attribute. *)
Inductive ContentBlock :=
| TextBlock (text : str)
| ToolUseBlock (id : str) (name : str) (input : ToolInput)
| OtherBlock (type : str).

(** A [tool_result] dict. *)
Record ToolResult := {
  tool_use_id : str;
  result_content : str
}.

Inductive Role := user | assistant.

(** The three kinds of ["content"] the source stores. *)
Inductive Content :=
| PlainText (text : str)
| Blocks (content : list ContentBlock)
| ToolResults (tool_results : list ToolResult).

Record Message := { role : Role; content : Content }.

Record ConversationMemory := {
  _messages : list Message;
  _turn_count : nat
}.

Definition __init__ : ConversationMemory :=
  {| _messages := []; _turn_count := 0 |}.

Definition add_user_message (text : str) (self : ConversationMemory) :=
  {| _messages := _messages self ++ [{| role := user; content := PlainText text |}];
     _turn_count := _turn_count self |}.

Definition add_assistant_message (content : list ContentBlock)
    (self : ConversationMemory) :=
  {| _messages := _messages self ++ [{| role := assistant; content := Blocks content |}];
     _turn_count := _turn_count self + 1 |}.

Definition add_tool_results (tool_results : list ToolResult)
    (self : ConversationMemory) :=
  {| _messages := _messages self ++ [{| role := user; content := ToolResults tool_results |}];
     _turn_count := _turn_count self |}.

Definition get_messages (self : ConversationMemory) : list Message :=
  _messages self.

Definition is_followup (self : ConversationMemory) : bool :=
  Nat.ltb 0 (_turn_count self).

Definition clear (self : ConversationMemory) : ConversationMemory :=
  {| _messages := []; _turn_count := 0 |}.

End Conversation.

Import Conversation.

(** ** The outside world

    The three network services are not code of this repository.  They are
    oracles: each answers from the request and from everything that has
    happened on the network before (the trace), which lets a service answer
    the same request differently at different times. *)

Module World.

(** An exception of the [requests] library.  All of them derive from
    [RequestException]; what the [except] clauses of the source test is
    membership in the sub-classes [Timeout], [ConnectionError] and
    [HTTPError] ([ConnectTimeout] is in the first two). *)
Record RequestException := {
  is_Timeout : bool;
  is_ConnectionError : bool;
  http_status : option Z;      (* [e.response.status_code] of an [HTTPError] *)
  exc_str : str                (* [str(e)] *)
}.

Definition HTTPError (status : Z) (msg : str) : RequestException :=
  {| is_Timeout := false; is_ConnectionError := false;
     http_status := Some status; exc_str := msg |}.

(** What can leave [AgentLoop.run] other than its return value. *)
Inductive exn :=
| RequestsError (e : RequestException)
| APIError (msg : str).

(** The parsed document of BeautifulSoup: strings and tags. *)
Inductive node :=
| NavigableString (s : str)
| Tag (name : str) (attrs : list (str * str)) (contents : list node).

(** The JSON answer of the search service. *)
Record OrganicResult := {
  title : option str;
  link : option str;
  snippet : option str
}.

Record SearchData := {
  answerBox : option (option str);      (* the box, and its ["answer"] key *)
  organic : option (list OrganicResult)
}.

Record Response := {
  stop_reason : str;
  response_content : list ContentBlock
}.

Inductive Event :=
| ModelCall (system : str) (messages : list Message)
| SearchPost (q : str) (num : Z)
| HttpGet (url : str).

(** [requests.get] / [requests.post]: an exception, or a response with its
    status code and what the source reads of it. *)
Inductive GetOutcome :=
| GetRaises (e : RequestException)
| GetResponse (status_code : Z) (content_type : option str) (text : str).

Inductive PostOutcome :=
| PostRaises (e : RequestException)
| PostResponse (status_code : Z) (json : SearchData).

Inductive ModelOutcome :=
| ModelRaises (msg : str)
| ModelResponds (response : Response).

Record world := {
  messages_create : list Event -> str -> list Message -> ModelOutcome;
  requests_post : list Event -> str -> Z -> PostOutcome;
  requests_get : list Event -> str -> GetOutcome;
  html_parser : str -> list node     (* [BeautifulSoup(text, "html.parser")] *)
}.

(** [response.raise_for_status()] raises for the 4xx and 5xx codes. *)
Definition is_error_status (status : Z) : bool :=
  ((400 <=? status) && (status <? 600))%Z.

End World.

Import World.

(** ** Effects

    The objects of one [AgentLoop] (its memory, its registry with the
    searcher inside) and the trace of network calls form the state.  A
    method either returns or raises; in both cases the state it has written
    stays written. *)

Module Effects.

Record ToolRegistry := {
  _search_count : nat;
  _scrape_count : nat;
  searcher_query : str;          (* [self.searcher.query] *)
  searcher_num_results : Z       (* [self.searcher.num_results] *)
}.

Record State := {
  memory : ConversationMemory;
  registry : ToolRegistry;
  trace : list Event
}.

Inductive result (A : Type) :=
| Ok (a : A)
| Raise (e : exn).
Arguments Ok {A} a.
Arguments Raise {A} e.

Definition M (A : Type) : Type := State -> result A * State.

Definition ret {A} (a : A) : M A := fun st => (Ok a, st).
Definition raise {A} (e : exn) : M A := fun st => (Raise e, st).

Definition bind {A B} (c : M A) (k : A -> M B) : M B :=
  fun st =>
    match c st with
    | (Ok a, st') => k a st'
    | (Raise e, st') => (Raise e, st')
    end.

Definition get_state : M State := fun st => (Ok st, st).

Definition with_memory (f : ConversationMemory -> ConversationMemory) : M unit :=
  fun st => (Ok tt, {| memory := f (memory st); registry := registry st;
                       trace := trace st |}).

Definition with_registry (f : ToolRegistry -> ToolRegistry) : M unit :=
  fun st => (Ok tt, {| memory := memory st; registry := f (registry st);
                       trace := trace st |}).

(** A network call: the oracle answers from the trace so far, and the call
    is recorded. *)
Definition network {A} (ev : Event) (answer : list Event -> A) : M A :=
  fun st => (Ok (answer (trace st)),
             {| memory := memory st; registry := registry st;
                trace := trace st ++ [ev] |}).

End Effects.

Import Effects.

Declare Scope monad_scope.
Delimit Scope monad_scope with monad.
Notation "x <- c ;; k" := (bind c (fun x => k))
  (at level 61, c at next level, right associativity) : monad_scope.
Notation "c ;;; k" := (bind c (fun _ => k))
  (at level 61, right associativity) : monad_scope.
Open Scope monad_scope.

(** ** tools/web_search.py *)

Module WebSearch.

Section WithWorld.
Variable w : world.

(** [raise_for_status] raises an [HTTPError]; the text of its message is
    the library's, and nothing in the source reads it. *)
Definition web_search (query : str) (num_results : Z) : M SearchData :=
  with_registry (fun r =>
    {| _search_count := _search_count r; _scrape_count := _scrape_count r;
       searcher_query := query; searcher_num_results := num_results |}) ;;;
  response <- network (SearchPost query num_results)
                (fun tr => requests_post w tr query num_results) ;;
  match response with
  | PostRaises e => raise (RequestsError e)
  | PostResponse status json =>
      if is_error_status status
      then raise (RequestsError (HTTPError status []))
      else ret json
  end.

(** [d.get(key, "")] on a key holding a string. *)
Definition get_str (v : option str) : str :=
  match v with Some s => s | None => [] end.

(** [l[:n]], with Python's reading of a negative bound. *)
Definition slice_to {A} (l : list A) (n : Z) : list A :=
  if (n <? 0)%Z then firstn (Z.to_nat (Z.of_nat (List.length l) + n)) l
  else firstn (Z.to_nat n) l.

Definition format_answer (answer : str) : str :=
  u "DIRECT ANSWER: " ++ answer.

Definition format_result (i : nat) (title link snippet : str) : str :=
  u "Result " ++ of_nat (i + 1) ++ u ":" ++ [LF] ++
  u "  Title:   " ++ title ++ [LF] ++
  u "  Summary: " ++ snippet ++ [LF] ++
  u "  URL:     " ++ link ++ [LF].

(** The loop [for i, result in enumerate(...)], started at index [i]. *)
Fixpoint format_organic (i : nat) (results : list OrganicResult) : list str :=
  match results with
  | [] => []
  | result :: rest =>
      let title := get_str (World.title result) in
      let link := get_str (World.link result) in
      let snippet := get_str (World.snippet result) in
      if truthy title && truthy link
      then format_result i title link snippet :: format_organic (S i) rest
      else format_organic (S i) rest
  end.

(** [formatted_results] at the end of [search_and_format]. *)
Definition formatted_results (data : SearchData) (num_results : Z) : list str :=
  match answerBox data with
  | Some box =>
      let answer := get_str box in
      if truthy answer then [format_answer answer] else []
  | None => []
  end ++
  match organic data with
  | Some results => format_organic 0 (slice_to results num_results)
  | None => []
  end.

Definition NO_RESULTS : str := u "No results found.".

Definition search_and_format (query : str) (num_results : Z) : M str :=
  data <- web_search query num_results ;;
  let final_output := join [LF] (formatted_results data num_results) in
  ret (if truthy final_output then final_output else NO_RESULTS).

End WithWorld.

End WebSearch.

(** ** tools/web_scraper.py *)

Module WebScraper.

Definition NOISE_TAGS : list str :=
  [u "script"; u "style"; u "nav"; u "footer"; u "header"; u "aside";
   u "form"; u "iframe"; u "noscript"; u "advertisement"].

Definition MAX_CHARS : nat := 3000.
Definition TIMEOUT_SECS : nat := 10.

(** *** What the source uses of BeautifulSoup *)

(** [tag.get(key)]: the parser keeps one value per attribute name. *)
Fixpoint attr (key : str) (attrs : list (str * str)) : option str :=
  match attrs with
  | [] => None
  | (k, v) :: rest => if PyStr.eqb k key then Some v else attr key rest
  end.

(** A test on a tag: its name and its attributes. *)
Definition tag_test := str -> list (str * str) -> bool.

(** [for tag in soup.find_all(...): tag.decompose()]: every tag that
    passes the test leaves the tree, with all that is below it. *)
Fixpoint decompose_all (test : tag_test) (n : node) : list node :=
  match n with
  | NavigableString _ => [n]
  | Tag name attrs contents =>
      if test name attrs then []
      else [Tag name attrs
              ((fix go (l : list node) : list node :=
                  match l with
                  | [] => []
                  | c :: l' => decompose_all test c ++ go l'
                  end) contents)]
  end.

Definition decompose_all_soup (test : tag_test) (soup : list node) : list node :=
  flat_map (decompose_all test) soup.

(** [find(...)]: the first tag in document order that passes the test. *)
Fixpoint find_node (test : tag_test) (n : node) : option node :=
  match n with
  | NavigableString _ => None
  | Tag name attrs contents =>
      if test name attrs then Some n
      else (fix go (l : list node) : option node :=
              match l with
              | [] => None
              | c :: l' =>
                  match find_node test c with
                  | Some t => Some t
                  | None => go l'
                  end
              end) contents
  end.

Fixpoint find (test : tag_test) (soup : list node) : option node :=
  match soup with
  | [] => None
  | c :: rest =>
      match find_node test c with
      | Some t => Some t
      | None => find test rest
      end
  end.

(** The strings below a node, in document order. *)
Fixpoint strings (n : node) : list str :=
  match n with
  | NavigableString s => [s]
  | Tag _ _ contents =>
      (fix go (l : list node) : list str :=
         match l with
         | [] => []
         | c :: l' => strings c ++ go l'
         end) contents
  end.

(** [tag.get_text(separator)] *)
Definition get_text (separator : str) (n : node) : str :=
  join separator (strings n).

(** *** The regular expressions *)

(** [pattern.search(s)] for a pattern given by its match at one position. *)
Fixpoint search (here : str -> bool) (s : str) : bool :=
  here s ||
  match s with
  | [] => false
  | _ :: s' => search here s'
  end.

(** [pre\s*post] at the head of [s]. *)
Definition literal_ws_literal (pre post : str) (s : str) : bool :=
  startswith s pre &&
  startswith (dropwhile isspace (skipn (List.length pre) s)) post.

(** [re.compile(r"display:\s*none|visibility:\s*hidden")], no flags. *)
Definition HIDDEN_STYLE_RE (s : str) : bool :=
  search (fun t => literal_ws_literal (u "display:") (u "none") t
                   || literal_ws_literal (u "visibility:") (u "hidden") t) s.

(** One pattern letter against one character under [re.I]: the two cases
    of the letter, and for [i], [k] and [s] the characters that Unicode
    case folding identifies with them. *)
Definition ignorecase_eqb (p c : codepoint) : bool :=
  (PyStr.lower c =? p)%N
  || ((p =? 105) && ((c =? 304) || (c =? 305)))%N
  || ((p =? 107) && (c =? 8490))%N
  || ((p =? 115) && (c =? 383))%N.

Fixpoint startswith_ignorecase (s pattern : str) {struct pattern} : bool :=
  match pattern, s with
  | [], _ => true
  | p :: pattern', c :: s' => ignorecase_eqb p c && startswith_ignorecase s' pattern'
  | _ :: _, [] => false
  end.

(** [re.compile(r"article|content|post|story", re.I)] *)
Definition CONTENT_CLASS_RE (s : str) : bool :=
  search (fun t => startswith_ignorecase t (u "article")
                   || startswith_ignorecase t (u "content")
                   || startswith_ignorecase t (u "post")
                   || startswith_ignorecase t (u "story")) s.

(** *** The tests of the source *)

Definition is_noise : tag_test :=
  fun name _ => existsb (PyStr.eqb name) NOISE_TAGS.

Definition is_hidden : tag_test :=
  fun _ attrs =>
    match attr (u "style") attrs with
    | Some style => HIDDEN_STYLE_RE style
    | None => false
    end.

Definition named (tag : str) : tag_test := fun name _ => PyStr.eqb name tag.

Definition has_id (value : str) : tag_test :=
  fun _ attrs =>
    match attr (u "id") attrs with
    | Some v => PyStr.eqb v value
    | None => false
    end.

Definition has_content_class : tag_test :=
  fun _ attrs =>
    match attr (u "class") attrs with
    | Some v => CONTENT_CLASS_RE v
    | None => false
    end.

(** [a or b] on the results of [find]: a tag is always true. *)
Definition or_else {A} (a b : option A) : option A :=
  match a with Some _ => a | None => b end.

(** *** [WebScraper.scrape] *)

Section WithWorld.
Variable w : world.

(** The error strings, in the order of the [return]s of the source. *)
Definition invalid_url_message (url : str) : str :=
  u "Error: Invalid URL '" ++ url ++ u "'. Must start with http:// or https://".

Definition timeout_message : str :=
  u "Error: Page took too long to load (>" ++ of_nat TIMEOUT_SECS
  ++ u "s). Try a different URL.".

Definition connection_message (url : str) : str :=
  u "Error: Could not connect to '" ++ url
  ++ u "'. Check the URL or your internet connection.".

Definition forbidden_message (url : str) : str :=
  u "Error: Access denied (403). '" ++ url ++ u "' blocks automated requests.".

Definition not_found_message (url : str) : str :=
  u "Error: Page not found (404). '" ++ url ++ u "' does not exist.".

Definition http_status_message (status : Z) (url : str) : str :=
  u "Error: HTTP " ++ of_Z status ++ u " from '" ++ url ++ u "'.".

Definition fetch_failure_message (url : str) (e : RequestException) : str :=
  u "Error fetching '" ++ url ++ u "': " ++ exc_str e.

Definition content_type_message (content_type : str) : str :=
  u "Error: Cannot scrape this file type (Content-Type: " ++ content_type
  ++ u "). " ++ u "web_scraper only works on HTML pages.".

Definition no_content_message : str :=
  u "Error: Could not find readable content on this page.".

Definition no_text_message : str :=
  u "Error: Page was found but contained no readable text.".

(** The [except] clauses of step 2, tried in the order they are written. *)
Definition on_exception (url : str) (e : RequestException) : str :=
  if is_Timeout e then timeout_message
  else if is_ConnectionError e then connection_message url
  else match http_status e with
       | Some status =>
           if (status =? 403)%Z then forbidden_message url
           else if (status =? 404)%Z then not_found_message url
           else http_status_message status url
       | None => fetch_failure_message url e
       end.

(** Step 9: the header; its last line is forty times U+2500. *)
Definition header (url title_text : str) : str :=
  u "SOURCE: " ++ url ++ [LF] ++
  u "TITLE:  " ++ title_text ++ [LF] ++
  repeat 9472%N 40 ++ [LF].

Definition TRUNCATION_MARKER : str :=
  [LF; LF] ++ u "[... truncated at " ++ of_nat MAX_CHARS ++ u " chars ...]".

(** Step 10. *)
Definition truncate (text : str) : str :=
  if Nat.ltb MAX_CHARS (List.length text)
  then firstn MAX_CHARS text ++ TRUNCATION_MARKER
  else text.

(** Steps 5 and 6 on the parsed document. *)
Definition remove_noise (soup : list node) : list node :=
  decompose_all_soup is_hidden (decompose_all_soup is_noise soup).

Definition main_content (soup : list node) : option node :=
  or_else (find (named (u "article")) soup)
  (or_else (find (named (u "main")) soup)
  (or_else (find (has_id (u "content")) soup)
  (or_else (find has_content_class soup)
           (find (named (u "body")) soup)))).

Definition title_text (soup : list node) : str :=
  match find (named (u "title")) soup with
  | Some title => strip (get_text [] title)
  | None => u "Unknown"
  end.

(** Steps 3 to 10, on a response that passed [raise_for_status]. *)
Definition extract (url : str) (content_type_header : option str)
    (response_text : str) : str :=
  let content_type := WebSearch.get_str content_type_header in
  if negb (contains content_type (u "text/html"))
  then content_type_message content_type
  else
    let soup := remove_noise (html_parser w response_text) in
    match main_content soup with
    | None => no_content_message
    | Some content =>
        let text := get_text [LF] content in
        let text := _clean_text text in
        if negb (truthy text) then no_text_message
        else header url (title_text soup) ++ truncate text
    end.

Definition scrape (url : str) : M str :=
  if negb (startswith url (u "http://") || startswith url (u "https://"))
  then ret (invalid_url_message url)
  else
    outcome <- network (HttpGet url) (fun tr => requests_get w tr url) ;;
    match outcome with
    | GetRaises e => ret (on_exception url e)
    | GetResponse status content_type text =>
        if is_error_status status
        then ret (on_exception url (HTTPError status []))
        else ret (extract url content_type text)
    end.

End WithWorld.

End WebScraper.

(** ** agent/tool_registry.py *)

Module Registry.

Section WithWorld.
Variable w : world.

Definition unknown_tool_message (tool_name : str) : str :=
  u "Error: Unknown tool '" ++ tool_name ++ u "'".

Definition count_search (r : ToolRegistry) : ToolRegistry :=
  {| _search_count := _search_count r + 1; _scrape_count := _scrape_count r;
     searcher_query := searcher_query r;
     searcher_num_results := searcher_num_results r |}.

Definition count_scrape (r : ToolRegistry) : ToolRegistry :=
  {| _search_count := _search_count r; _scrape_count := _scrape_count r + 1;
     searcher_query := searcher_query r;
     searcher_num_results := searcher_num_results r |}.

Definition execute (tool_name : str) (tool_input : ToolInput) : M str :=
  if PyStr.eqb tool_name (u "web_search") then
    let query := WebSearch.get_str (input_query tool_input) in
    let num_results :=
      match input_num_results tool_input with Some n => n | None => 5%Z end in
    with_registry count_search ;;;
    WebSearch.search_and_format w query num_results
  else if PyStr.eqb tool_name (u "web_scraper") then
    let url := WebSearch.get_str (input_url tool_input) in
    with_registry count_scrape ;;;
    WebScraper.scrape w url
  else ret (unknown_tool_message tool_name).

Definition reset (r : ToolRegistry) : ToolRegistry :=
  {| _search_count := 0; _scrape_count := 0;
     searcher_query := searcher_query r;
     searcher_num_results := searcher_num_results r |}.

End WithWorld.

End Registry.

(** ** agent/agent_loop.py *)

Module AgentLoop.

Definition MAX_ITERATIONS : nat := 10.

(** The texts of [agent/prompts.py]; the dashes are U+2014 and the bullets
    U+2022. *)
Definition RESEARCHER_PROMPT : str :=
  u "You are an expert Research Assistant with access to two tools:" ++
  [LF] ++ [LF] ++ u "1. web_search  " ++ [8212%N] ++
  u " searches Google via Serper.dev and returns the top results" ++
  [LF] ++ u "2. web_scraper " ++ [8212%N] ++
  u " fetches the full text of a specific URL" ++ [LF] ++ [LF] ++
  u "## Rules:" ++ [LF] ++
  u "- ALWAYS call web_search before answering. Never guess from memory." ++
  [LF] ++
  u "- If search snippets are too short, call web_scraper on the best URL." ++
  [LF] ++
  u "- Search multiple times with different queries if the first result is weak." ++
  [LF] ++ u "- Be factual. If uncertain, say so." ++ [LF] ++ [LF] ++
  u "## Response format:" ++ [LF] ++ [LF] ++
  u "**Answer:** [Direct, one-sentence answer]" ++ [LF] ++ [LF] ++
  u "**Details:**" ++ [LF] ++ u "- [Key fact 1]" ++ [LF] ++
  u "- [Key fact 2]" ++ [LF] ++ u "- [Key fact 3]" ++ [LF] ++ [LF] ++
  u "**Sources:** [List URLs you used]".

Definition FOLLOWUP_PROMPT : str :=
  u "You are an expert Research Assistant continuing a conversation." ++
  [LF] ++ [LF] ++
  u "You have the conversation history above. Answer the follow-up question." ++
  [LF] ++ [LF] ++ u "- Search again ONLY if new information is needed." ++
  [LF] ++
  u "- If the previous search results already cover it, answer directly." ++
  [LF] ++ u "- Stay concise " ++ [8212%N] ++
  u " this is a follow-up, not a new research task.".

Definition FALLBACK_MESSAGE : str :=
  u "I wasn't able to find a reliable answer." ++ [LF] ++
  u "Possible reasons:" ++ [LF] ++ u "  " ++ [8226%N] ++
  u " Topic is too recent or obscure" ++ [LF] ++ u "  " ++ [8226%N] ++
  u " Try rephrasing with more specific keywords" ++ [LF] ++ u "  " ++
  [8226%N] ++ u " Check that SERPER_API_KEY is valid".

Section WithWorld.
Variable w : world.

(** [self.client.messages.create(...)]: the schemas are fixed, the prompt
    and the transcript vary. *)
Definition create (system : str) : M Response :=
  st <- get_state ;;
  let messages := get_messages (memory st) in
  outcome <- network (ModelCall system messages)
               (fun tr => messages_create w tr system messages) ;;
  match outcome with
  | ModelRaises msg => raise (APIError msg)
  | ModelResponds response => ret response
  end.

(** The loop of [_execute_tools]; the results come in the order of the
    appends. *)
Fixpoint execute_blocks (content : list ContentBlock) : M (list ToolResult) :=
  match content with
  | [] => ret []
  | ToolUseBlock id name input :: rest =>
      output <- Registry.execute w name input ;;
      results <- execute_blocks rest ;;
      ret ({| tool_use_id := id; result_content := output |} :: results)
  | _ :: rest => execute_blocks rest
  end.

Definition _execute_tools (response : Response) : M (list ToolResult) :=
  execute_blocks (response_content response).

(** The texts that the generator of [_extract_text] yields. *)
Fixpoint block_texts (content : list ContentBlock) : list str :=
  match content with
  | [] => []
  | TextBlock text :: rest =>
      if truthy text then text :: block_texts rest else block_texts rest
  | _ :: rest => block_texts rest
  end.

Definition _extract_text (response : Response) : str :=
  strip (join [LF] (block_texts (response_content response))).

(** The [tool_use] branch of the loop body: save the response, run its
    tools, send the results back as one user message. *)
Definition act_and_observe (response : Response) : M unit :=
  with_memory (add_assistant_message (response_content response)) ;;;
  tool_results <- _execute_tools response ;;
  with_memory (add_tool_results tool_results).

(** The [for] loop of [run] over the steps that remain. *)
Fixpoint steps (system : str) (range : list nat) : M str :=
  match range with
  | [] => ret FALLBACK_MESSAGE
  | _ :: rest =>
      response <- create system ;;
      if PyStr.eqb (stop_reason response) (u "end_turn") then
        let answer := _extract_text response in
        with_memory (add_assistant_message (response_content response)) ;;;
        ret (if truthy answer then answer else FALLBACK_MESSAGE)
      else if PyStr.eqb (stop_reason response) (u "tool_use") then
        act_and_observe response ;;;
        steps system rest
      else ret FALLBACK_MESSAGE
  end.

Definition run (question : str) : M str :=
  with_memory (add_user_message question) ;;;
  st <- get_state ;;
  let system :=
    if is_followup (memory st) then FOLLOWUP_PROMPT else RESEARCHER_PROMPT in
  steps system (seq 1 MAX_ITERATIONS).

Definition new_session : M unit :=
  with_memory clear ;;;
  with_registry Registry.reset.

End WithWorld.

End AgentLoop.

(** ** Vocabulary of the statements about the scraper *)

Module ScraperSpec.

Import WebScraper.

(** The ways an extraction can fail. *)
Inductive FailureMode :=
| invalid_url
| timed_out
| connection_failed
| http_403
| http_404
| http_other
| transport_failure
| unsupported_type
| no_content_found
| no_readable_text.

(** Reading the failure mode off a returned string; [None] is a string
    that is none of the error messages. *)
Definition classify (out : str) : option FailureMode :=
  if startswith out (u "Error: Invalid URL '") then Some invalid_url
  else if startswith out (u "Error: Page took too long to load") then Some timed_out
  else if startswith out (u "Error: Could not connect to '") then Some connection_failed
  else if startswith out (u "Error: Access denied (403).") then Some http_403
  else if startswith out (u "Error: Page not found (404).") then Some http_404
  else if startswith out (u "Error: HTTP ") then Some http_other
  else if startswith out (u "Error fetching '") then Some transport_failure
  else if startswith out (u "Error: Cannot scrape this file type") then Some unsupported_type
  else if startswith out (u "Error: Could not find readable content") then Some no_content_found
  else if startswith out (u "Error: Page was found but contained no readable text")
       then Some no_readable_text
  else None.

(** What goes wrong for a given answer of the network, if anything. *)
Definition failure_of_exception (e : RequestException) : FailureMode :=
  if is_Timeout e then timed_out
  else if is_ConnectionError e then connection_failed
  else match http_status e with
       | Some status =>
           if (status =? 403)%Z then http_403
           else if (status =? 404)%Z then http_404
           else http_other
       | None => transport_failure
       end.

(** The normalized text of the main content of a document, when the
    document has a main content. *)
Definition normalized_text (w : world) (response_text : str) : option str :=
  match main_content (remove_noise (html_parser w response_text)) with
  | Some content => Some (_clean_text (get_text [LF] content))
  | None => None
  end.

Definition failure_of_document (w : world) (content_type : option str)
    (response_text : str) : option FailureMode :=
  if negb (contains (WebSearch.get_str content_type) (u "text/html"))
  then Some unsupported_type
  else match normalized_text w response_text with
       | None => Some no_content_found
       | Some [] => Some no_readable_text
       | Some (_ :: _) => None
       end.

Definition accepted_scheme (url : str) : bool :=
  startswith url (u "http://") || startswith url (u "https://").

Definition scrape_failure (w : world) (tr : list Event) (url : str)
    : option FailureMode :=
  if negb (accepted_scheme url) then Some invalid_url
  else match requests_get w tr url with
       | GetRaises e => Some (failure_of_exception e)
       | GetResponse status content_type text =>
           if is_error_status status
           then Some (failure_of_exception (HTTPError status []))
           else failure_of_document w content_type text
       end.

(** A page served to every GET: one paragraph in the body, and a block
    hidden by an upper-case style. *)
Definition sample_page : list node :=
  [Tag (u "html") []
     [Tag (u "head") [] [Tag (u "title") [] [NavigableString (u " Sample ")]];
      Tag (u "body") []
        [Tag (u "p") [] [NavigableString (u "Hello   world")];
         Tag (u "div") [(u "style", u "display: none")]
           [NavigableString (u "lower")];
         Tag (u "div") [(u "style", u "DISPLAY:NONE")]
           [NavigableString (u "UPPER")]]]].

Definition sample_world : world :=
  {| messages_create := fun _ _ _ =>
       ModelResponds {| stop_reason := u "max_tokens"; response_content := [] |};
     requests_post := fun _ _ _ =>
       PostResponse 200 {| answerBox := None; organic := None |};
     requests_get := fun _ _ =>
       GetResponse 200 (Some (u "text/html; charset=utf-8")) [];
     html_parser := fun _ => sample_page |}.

(** A page whose only paragraph is 3500 letters long. *)
Definition long_page : list node :=
  [Tag (u "html") []
     [Tag (u "body") [] [Tag (u "p") [] [NavigableString (repeat 120%N 3500)]]]].

Definition long_world : world :=
  {| messages_create := messages_create sample_world;
     requests_post := requests_post sample_world;
     requests_get := requests_get sample_world;
     html_parser := fun _ => long_page |}.

(** Two blocks that differ only in the case of their style. *)
Definition hidden_lower : node :=
  Tag (u "div") [(u "style", u "display:none")] [NavigableString (u "secret")].

Definition hidden_upper : node :=
  Tag (u "div") [(u "style", u "DISPLAY:NONE")] [NavigableString (u "secret")].

Definition initial_state : State :=
  {| memory := Conversation.__init__;
     registry := {| _search_count := 0; _scrape_count := 0;
                    searcher_query := []; searcher_num_results := 5 |};
     trace := [] |}.

End ScraperSpec.

(** ** Vocabulary of the statements about the search *)

Module SearchSpec.

Import WebSearch.

(** The entries the source keeps: title and URL both present and not
    empty. *)
Definition kept (result : OrganicResult) : bool :=
  truthy (get_str (title result)) && truthy (get_str (link result)).

(** The results with their positions in the list, from [i] on. *)
Definition numbered (i : nat) (results : list OrganicResult)
    : list (nat * OrganicResult) :=
  combine (seq i (List.length results)) results.

Definition entry (numbered_result : nat * OrganicResult) : str :=
  let (i, result) := numbered_result in
  format_result i (get_str (title result)) (get_str (link result))
    (get_str (snippet result)).

(** The line for the direct answer: there when the answer box holds a
    non-empty answer. *)
Definition answer_lines (data : SearchData) : list str :=
  match answerBox data with
  | Some (Some (c :: answer)) => [format_answer (c :: answer)]
  | _ => []
  end.

Definition results_of (data : SearchData) : list OrganicResult :=
  match organic data with Some results => results | None => [] end.

(** The numbered entries for the first [n] results. *)
Definition entries (data : SearchData) (n : nat) : list str :=
  map entry (filter (fun p => kept (snd p)) (numbered 0 (firstn n (results_of data)))).

(** The output the formatting would have if, as the specification has it,
    only the entries missing both the title and the URL were skipped. *)
Definition claimed_kept (result : OrganicResult) : bool :=
  truthy (get_str (title result)) || truthy (get_str (link result)).

Definition claimed_output (data : SearchData) (n : nat) : str :=
  let lines :=
    answer_lines data
    ++ map entry (filter (fun p => claimed_kept (snd p))
                    (numbered 0 (firstn n (results_of data)))) in
  match lines with
  | [] => NO_RESULTS
  | _ :: _ => join [LF] lines
  end.

(** A backend whose one result has a title and a summary but no URL. *)
Definition title_only_data : SearchData :=
  {| answerBox := None;
     organic := Some [{| title := Some (u "Fusion news"); link := None;
                         snippet := Some (u "A summary") |}] |}.

(** A backend with a direct answer and three results, the second of which
    has no title. *)
Definition full_data : SearchData :=
  {| answerBox := Some (Some (u "Paris"));
     organic := Some
       [{| title := Some (u "A"); link := Some (u "https://a.example");
           snippet := Some (u "first") |};
        {| title := None; link := Some (u "https://b.example");
           snippet := Some (u "second") |};
        {| title := Some (u "C"); link := Some (u "https://c.example");
           snippet := None |}] |}.

Definition search_world (data : SearchData) : world :=
  {| messages_create := messages_create ScraperSpec.sample_world;
     requests_post := fun _ _ _ => PostResponse 200 data;
     requests_get := requests_get ScraperSpec.sample_world;
     html_parser := html_parser ScraperSpec.sample_world |}.

End SearchSpec.

(** ** Vocabulary of the statements about the loop *)

Module LoopSpec.

Definition role_eqb (a b : Role) : bool :=
  match a, b with
  | user, user | assistant, assistant => true
  | _, _ => false
  end.

Definition other (r : Role) : Role :=
  match r with user => assistant | assistant => user end.

(** The roles of [msgs] alternate, the first one being [expected]. *)
Fixpoint alternates (expected : Role) (msgs : list Message) : bool :=
  match msgs with
  | [] => true
  | m :: rest => role_eqb (role m) expected && alternates (other expected) rest
  end.

(** The invariant of the transcript: alternation, starting with the user. *)
Definition well_formed (msgs : list Message) : bool := alternates user msgs.

(** The role that has to speak after [msgs], when [expected] was to speak
    first. *)
Definition next_role (expected : Role) (msgs : list Message) : Role :=
  fold_left (fun r _ => other r) msgs expected.

(** The identifiers of the tool requests of a response, in order. *)
Fixpoint request_ids (content : list ContentBlock) : list str :=
  match content with
  | [] => []
  | ToolUseBlock id _ _ :: rest => id :: request_ids rest
  | _ :: rest => request_ids rest
  end.

Definition is_model_call (ev : Event) : bool :=
  match ev with ModelCall _ _ => true | _ => false end.

(** How many requests the model backend has received. *)
Definition model_calls (tr : list Event) : nat :=
  List.length (filter is_model_call tr).

(** The router is run on every tool request of [content], in the order of
    the blocks and each in the state its predecessor left; every request
    gets one result, which carries the identifier of the request and the
    output of the router. *)
Inductive executed_in_order (w : world)
    : State -> list ContentBlock -> list ToolResult -> State -> Prop :=
| executed_nil st :
    executed_in_order w st [] [] st
| executed_tool st id name input output st1 rest results st2 :
    Registry.execute w name input st = (Ok output, st1) ->
    executed_in_order w st1 rest results st2 ->
    executed_in_order w st (ToolUseBlock id name input :: rest)
      ({| tool_use_id := id; result_content := output |} :: results) st2
| executed_text st text rest results st2 :
    executed_in_order w st rest results st2 ->
    executed_in_order w st (TextBlock text :: rest) results st2
| executed_other st type rest results st2 :
    executed_in_order w st rest results st2 ->
    executed_in_order w st (OtherBlock type :: rest) results st2.

(** The search backend answers every request with JSON and a status that
    [raise_for_status] lets through. *)
Definition search_backend_answers (w : world) : Prop :=
  forall tr q n, exists status data,
    requests_post w tr q n = PostResponse status data
    /\ is_error_status status = false.

(** The model backend answers every request by asking for tools. *)
Definition always_requests_actions (w : world) : Prop :=
  forall tr system messages, exists response,
    messages_create w tr system messages = ModelResponds response
    /\ stop_reason response = u "tool_use".

(** The state as the model call of one step and the saving of its response
    leave it. *)
Definition after_response (system : str) (response : Response) (st : State)
    : State :=
  {| memory := add_assistant_message (response_content response) (memory st);
     registry := registry st;
     trace := trace st ++ [ModelCall system (get_messages (memory st))] |}.

(** The state one [tool_use] step ends in. *)
Definition observed (results : list ToolResult) (st1 : State) : State :=
  {| memory := add_tool_results results (memory st1);
     registry := registry st1;
     trace := trace st1 |}.

(** A model that asks for one search and one page on every call. *)
Definition two_requests : list ContentBlock :=
  [TextBlock (u "Let me look that up.");
   ToolUseBlock (u "toolu_01") (u "web_search")
     {| input_query := Some (u "fusion energy"); input_num_results := None;
        input_url := None |};
   ToolUseBlock (u "toolu_02") (u "web_scraper")
     {| input_query := None; input_num_results := None;
        input_url := Some (u "https://example.com/a") |}].

Definition tool_world : world :=
  {| messages_create := fun _ _ _ =>
       ModelResponds {| stop_reason := u "tool_use";
                        response_content := two_requests |};
     requests_post := requests_post ScraperSpec.sample_world;
     requests_get := requests_get ScraperSpec.sample_world;
     html_parser := html_parser ScraperSpec.sample_world |}.

(** A search request for fifty results. *)
Definition fifty_results : ToolInput :=
  {| input_query := Some (u "fusion energy"); input_num_results := Some 50%Z;
     input_url := None |}.

End LoopSpec.

(** ** Vocabulary of the statements about text *)

Module TextSpec.

(** No white space at the head, none at the end. *)
Definition nows_hd (l : str) : Prop :=
  match l with [] => True | c :: _ => isspace c = false end.

Definition nows_last (l : str) : Prop :=
  match l with [] => True | _ :: _ => isspace (last l 0%N) = false end.

(** A string that [strip] leaves alone. *)
Definition trimmed (l : str) : Prop := nows_hd l /\ nows_last l.

Definition nolb (l : str) : Prop := Forall (fun c => islinebreak c = false) l.

(** What the list comprehensions of [_clean_text] leave: a line that is not
    empty, has no white space at either end and no line boundary inside. *)
Definition good_line (l : str) : Prop := l <> [] /\ trimmed l /\ nolb l.

(** [text] holds two spaces in a row somewhere. *)
Fixpoint has_double_space (text : str) : bool :=
  match text with
  | [] => false
  | c :: rest =>
      match rest with
      | d :: _ => (c =? SPACE)%N && (d =? SPACE)%N || has_double_space rest
      | [] => false
      end
  end.

Definition double_space_free (text : str) : Prop :=
  forall a b, text <> a ++ SPACE :: SPACE :: b.

End TextSpec.

Import TextSpec.

(** ** agent/tool_registry.py: the tool schemas *)

Module Schemas.

(** One entry of ["properties"] in an input schema. *)
Record Property := {
  property_name : str;
  property_type : str;
  property_description : str;
  property_default : option Z
}.

(** One tool definition of [get_schemas]. *)
Record Schema := {
  schema_name : str;
  schema_description : str;
  schema_properties : list Property;
  schema_required : list str
}.

Definition get_schemas : list Schema :=
  [ {| schema_name := u "web_search";
       schema_description :=
         u "Search Google for current information. " ++
         u "Use this for any question that needs up-to-date facts. " ++
         u "Returns titles, summaries, and URLs of top results.";
       schema_properties :=
         [ {| property_name := u "query"; property_type := u "string";
              property_description :=
                u "The search query. Be specific for better results.";
              property_default := None |};
           {| property_name := u "num_results"; property_type := u "integer";
              property_description :=
                u "Number of results to return (default 5, max 10).";
              property_default := Some 5%Z |} ];
       schema_required := [u "query"] |};
    {| schema_name := u "web_scraper";
       schema_description :=
         u "Fetch and read the full text of a specific URL. " ++
         u "Use this when search snippets aren't detailed enough " ++
         u "and you need the complete article content.";
       schema_properties :=
         [ {| property_name := u "url"; property_type := u "string";
              property_description :=
                u "Full URL to fetch (must start with https://).";
              property_default := None |} ];
       schema_required := [u "url"] |} ].

(** [name] is the name of one of the tools offered to the model. *)
Definition offered (name : str) : bool :=
  existsb (fun schema => PyStr.eqb name (schema_name schema)) get_schemas.

End Schemas.

(** ** Vocabulary of the further statements *)

Module MoreSpec.

Import LoopSpec.

(** The operations of [ConversationMemory] that write. *)
Inductive Op :=
| AddUser (text : str)
| AddAssistant (content : list ContentBlock)
| AddToolResults (tool_results : list ToolResult)
| Clear.

Definition apply_op (self : ConversationMemory) (op : Op) : ConversationMemory :=
  match op with
  | AddUser text => add_user_message text self
  | AddAssistant content => add_assistant_message content self
  | AddToolResults tool_results => add_tool_results tool_results self
  | Clear => clear self
  end.

Definition apply_ops (ops : list Op) (self : ConversationMemory)
    : ConversationMemory :=
  fold_left apply_op ops self.

(** How many messages of the assistant a transcript holds. *)
Definition assistant_messages (msgs : list Message) : nat :=
  List.length (filter (fun m => role_eqb (role m) assistant) msgs).

(** The state as [run] leaves it before its loop, and the prompt it picks. *)
Definition asked (question : str) (st : State) : State :=
  {| memory := add_user_message question (memory st);
     registry := registry st;
     trace := trace st |}.

Definition chosen_prompt (st : State) : str :=
  if is_followup (memory st) then AgentLoop.FOLLOWUP_PROMPT
  else AgentLoop.RESEARCHER_PROMPT.

(** The request [run] sends first. *)
Definition first_call (question : str) (st : State) : Event :=
  ModelCall (chosen_prompt st) (get_messages (memory (asked question st))).

(** The arguments of a search as [execute] reads them. *)
Definition query_of (tool_input : ToolInput) : str :=
  WebSearch.get_str (input_query tool_input).

Definition num_results_of (tool_input : ToolInput) : Z :=
  match input_num_results tool_input with Some n => n | None => 5%Z end.

(** The search backend fails on a request: [requests.post] raises, or the
    status is one that [raise_for_status] raises on. *)
Definition post_fails (outcome : PostOutcome) : bool :=
  match outcome with
  | PostRaises _ => true
  | PostResponse status _ => is_error_status status
  end.

(** The state after [scrape]: only the trace can have grown. *)
Definition fetched (url : str) (st : State) : State :=
  {| memory := memory st;
     registry := registry st;
     trace := trace st ++ (if ScraperSpec.accepted_scheme url then [HttpGet url] else []) |}.

(** A tag passes one of two tests. *)
Definition either (p q : WebScraper.tag_test) : WebScraper.tag_test :=
  fun name attrs => p name attrs || q name attrs.

(** Some tag of the tree passes the test. *)
Fixpoint any_tag (test : WebScraper.tag_test) (n : node) : bool :=
  match n with
  | NavigableString _ => false
  | Tag name attrs contents =>
      test name attrs
      || (fix go (l : list node) : bool :=
            match l with
            | [] => false
            | c :: l' => any_tag test c || go l'
            end) contents
  end.

Definition any_tag_soup (test : WebScraper.tag_test) (soup : list node) : bool :=
  existsb (any_tag test) soup.

(** The events of a trace that are requests to the model carry [system]. *)
Definition prompt_is (system : str) (ev : Event) : Prop :=
  match ev with
  | ModelCall s _ => s = system
  | _ => True
  end.

Definition is_Ok {A} (r : result A) : bool :=
  match r with Ok _ => true | Raise _ => false end.

(** A model that answers at once, and a search backend that is down. *)
Definition answer_world : world :=
  {| messages_create := fun _ _ _ =>
       ModelResponds {| stop_reason := u "end_turn";
                        response_content :=
                          [TextBlock (u " Paris is the capital of France. ")] |};
     requests_post := requests_post ScraperSpec.sample_world;
     requests_get := requests_get ScraperSpec.sample_world;
     html_parser := html_parser ScraperSpec.sample_world |}.

Definition search_down_world : world :=
  {| messages_create := messages_create tool_world;
     requests_post := fun _ _ _ => PostResponse 503 {| answerBox := None; organic := None |};
     requests_get := requests_get ScraperSpec.sample_world;
     html_parser := html_parser ScraperSpec.sample_world |}.

Definition model_down_world : world :=
  {| messages_create := fun _ _ _ => ModelRaises (u "overloaded");
     requests_post := requests_post ScraperSpec.sample_world;
     requests_get := requests_get ScraperSpec.sample_world;
     html_parser := html_parser ScraperSpec.sample_world |}.

(** A model that asks for one search on its first call and answers on the
    second. *)
Definition search_then_answer_world : world :=
  {| messages_create := fun tr _ _ =>
       match tr with
       | [] => ModelResponds
                 {| stop_reason := u "tool_use";
                    response_content :=
                      [ToolUseBlock (u "toolu_01") (u "web_search")
                         {| input_query := Some (u "capital of France");
                            input_num_results := None; input_url := None |}] |}
       | _ :: _ => ModelResponds
                 {| stop_reason := u "end_turn";
                    response_content := [TextBlock (u "Paris.")] |}
       end;
     requests_post := fun _ _ _ => PostResponse 200 SearchSpec.full_data;
     requests_get := requests_get ScraperSpec.sample_world;
     html_parser := html_parser ScraperSpec.sample_world |}.

End MoreSpec.

(* ------------------------------------------------------------------ *)
(** * Properties *)

(** ** Strings *)

Section StringFacts.


Lemma dropwhile_nows_hd s : nows_hd (dropwhile isspace s).
Proof.
  induction s as [|c s IH]; simpl; [exact I|].
  destruct (isspace c) eqn:E; [exact IH | exact E].
Qed.

Lemma dropwhile_fix s : nows_hd s -> dropwhile isspace s = s.
Proof. destruct s as [|c s]; simpl; [reflexivity|]. now intros ->. Qed.

Lemma dropwhile_suffix p s : exists pre, s = pre ++ dropwhile p s.
Proof.
  induction s as [|c s [pre IH]]; simpl.
  - now exists [].
  - destruct (p c).
    + exists (c :: pre). simpl. now f_equal.
    + now exists [].
Qed.

Lemma rstrip_prefix s : exists suf, s = rstrip s ++ suf.
Proof.
  unfold rstrip. destruct (dropwhile_suffix isspace (rev s)) as [pre H].
  exists (rev pre). apply rev_eq_app in H. exact H.
Qed.

Lemma rstrip_nows_last s : nows_last (rstrip s).
Proof.
  unfold rstrip. pose proof (dropwhile_nows_hd (rev s)) as H.
  destruct (dropwhile isspace (rev s)) as [|c t]; simpl in *; [exact I|].
  unfold nows_last. destruct (rev t ++ [c]) eqn:E.
  - now destruct (rev t).
  - rewrite <- E, last_last. exact H.
Qed.

Lemma rstrip_nows_hd s : nows_hd s -> nows_hd (rstrip s).
Proof.
  intros H. destruct (rstrip_prefix s) as [suf E].
  destruct (rstrip s) as [|c t]; [exact I|].
  rewrite E in H. exact H.
Qed.

Lemma rstrip_fix s : nows_last s -> rstrip s = s.
Proof.
  intros H. destruct s as [|c s]; [reflexivity|].
  destruct (@exists_last _ (c :: s)) as (l' & a & E); [discriminate|].
  assert (Ha : isspace a = false).
  { unfold nows_last in H. simpl nows_last in H. rewrite E, last_last in H. exact H. }
  rewrite E. unfold rstrip. rewrite rev_app_distr. simpl. rewrite Ha.
  simpl. now rewrite rev_involutive.
Qed.

Lemma strip_trimmed s : trimmed (strip s).
Proof.
  split.
  - apply rstrip_nows_hd, dropwhile_nows_hd.
  - apply rstrip_nows_last.
Qed.

Lemma strip_fix s : trimmed s -> strip s = s.
Proof.
  intros [H1 H2]. unfold strip, lstrip. rewrite dropwhile_fix by exact H1.
  now apply rstrip_fix.
Qed.

Lemma isspace_SPACE : isspace SPACE = true.
Proof. reflexivity. Qed.

Lemma islinebreak_SPACE : islinebreak SPACE = false.
Proof. reflexivity. Qed.

End StringFacts.

(** ** [splitlines] *)

Section SplitlinesFacts.

Lemma splitlines_from_nolb m : forall cur rest,
  nolb m -> splitlines_from cur (m ++ rest) = splitlines_from (rev m ++ cur) rest.
Proof.
  induction m as [|c m IH]; intros cur rest H; [reflexivity|].
  inversion H as [|? ? Hc Hm]; subst. simpl. rewrite Hc.
  rewrite IH by exact Hm. now rewrite <- app_assoc.
Qed.

(** Every line that [splitlines] returns is free of line boundaries. *)
Lemma splitlines_from_lines_nolb n : forall s cur,
  List.length s <= n -> nolb (rev cur) ->
  Forall nolb (splitlines_from cur s).
Proof.
  induction n as [|n IH]; intros s cur Hn Hcur.
  - destruct s; [|simpl in Hn; lia]. simpl.
    destruct cur; constructor; [exact Hcur | constructor].
  - destruct s as [|c rest]; simpl.
    + destruct cur; constructor; [exact Hcur | constructor].
    + destruct (islinebreak c) eqn:Ec.
      * constructor; [exact Hcur|].
        simpl in Hn.
        destruct rest as [|d rest'].
        -- simpl. constructor.
        -- destruct ((c =? CR)%N && (d =? LF)%N).
           ++ apply IH; [simpl in Hn; lia | constructor].
           ++ apply IH; [lia | constructor].
      * apply IH; [simpl in Hn; lia|].
        simpl. apply Forall_app. split; [exact Hcur|].
        constructor; [exact Ec | constructor].
Qed.

Lemma splitlines_lines_nolb s : Forall nolb (splitlines s).
Proof.
  apply (@splitlines_from_lines_nolb (List.length s)); [lia | constructor].
Qed.

End SplitlinesFacts.

(** ** [join] on ["\n"] *)

Section JoinFacts.


Lemma join_cons2 sep p q rest :
  join sep (p :: q :: rest) = p ++ sep ++ join sep (q :: rest).
Proof. reflexivity. Qed.

Lemma splitlines_join ms :
  Forall good_line ms -> splitlines (join [LF] ms) = ms.
Proof.
  unfold splitlines.
  induction ms as [|m ms IH]; intros H; [reflexivity|].
  inversion H as [|? ? (Hne & _ & Hlb) Hms]; subst.
  destruct ms as [|q ms].
  - simpl. rewrite <- (app_nil_r m) at 1.
    rewrite splitlines_from_nolb by exact Hlb. simpl.
    rewrite app_nil_r.
    destruct (rev m) eqn:E.
    + apply (f_equal (@rev _)) in E. rewrite rev_involutive in E. now subst.
    + rewrite <- E. now rewrite rev_involutive.
  - rewrite join_cons2. rewrite splitlines_from_nolb by exact Hlb.
    rewrite app_nil_r.
    assert (Hq : join [LF] (q :: ms) <> []).
    { inversion Hms as [|? ? (Hqne & _) _]; subst.
      destruct ms; simpl; [exact Hqne|].
      destruct q; [now elim Hqne | discriminate]. }
    specialize (IH Hms).
    destruct (join [LF] (q :: ms)) as [|d r] eqn:Ej; [now elim Hq|].
    simpl. rewrite rev_involutive. f_equal. exact IH.
Qed.

Lemma nows_last_snoc l x : nows_last (l ++ [x]) <-> isspace x = false.
Proof.
  unfold nows_last. destruct (l ++ [x]) eqn:E; [now destruct l|].
  rewrite <- E, last_last. tauto.
Qed.

Lemma nows_last_app a b : b <> [] -> nows_last b -> nows_last (a ++ b).
Proof.
  intros Hb H. destruct (@exists_last _ b Hb) as (b' & x & ->).
  apply nows_last_snoc in H. rewrite app_assoc. now apply nows_last_snoc.
Qed.

Lemma join_good ms :
  Forall good_line ms -> trimmed (join [LF] ms) /\ (ms <> [] -> join [LF] ms <> []).
Proof.
  induction ms as [|m ms IH]; intros H.
  - simpl. repeat split; try exact I. congruence.
  - inversion H as [|? ? (Hne & (Hh & Hl) & _) Hms]; subst.
    destruct ms as [|q ms].
    + simpl. repeat split; auto.
    + destruct (IH Hms) as [[_ Hl'] Hne'].
      rewrite join_cons2. repeat split.
      * destruct m; [now elim Hne | exact Hh].
      * rewrite app_assoc. apply nows_last_app; [apply Hne'; discriminate | exact Hl'].
      * intros _. destruct m; [now elim Hne | discriminate].
Qed.

End JoinFacts.

(** ** The substitution [re.sub(r" {2,}", " ", text)] *)

Section SubSpacesFacts.


Lemma has_double_space_spec text :
  has_double_space text = false -> double_space_free text.
Proof.
  intros H a. revert text H.
  induction a as [|x a IH]; intros text H b E; subst text.
  - simpl in H. discriminate.
  - simpl app in H. simpl has_double_space in H.
    destruct (a ++ SPACE :: SPACE :: b) eqn:Ea; [now destruct a|].
    apply orb_false_iff in H. destruct H as [_ H].
    rewrite <- Ea in H. now apply (IH _ H b).
Qed.

Lemma sub_spaces_cons c rest :
  sub_spaces (c :: rest) =
  match rest with
  | d :: _ => if (c =? SPACE)%N && (d =? SPACE)%N then sub_spaces rest
              else c :: sub_spaces rest
  | [] => [c]
  end.
Proof. reflexivity. Qed.

Lemma sub_spaces_hd text : hd_error (sub_spaces text) = hd_error text.
Proof.
  induction text as [|c rest IH]; [reflexivity|].
  rewrite sub_spaces_cons. destruct rest as [|d rest']; [reflexivity|].
  destruct ((c =? SPACE)%N && (d =? SPACE)%N) eqn:E; [|reflexivity].
  rewrite IH. simpl. apply andb_true_iff in E. destruct E as [E1 E2].
  apply N.eqb_eq in E1, E2. congruence.
Qed.

Lemma sub_spaces_last text d0 : last (sub_spaces text) d0 = last text d0.
Proof.
  induction text as [|c rest IH]; [reflexivity|].
  rewrite sub_spaces_cons. destruct rest as [|d rest']; [reflexivity|].
  destruct ((c =? SPACE)%N && (d =? SPACE)%N) eqn:E.
  - rewrite IH. reflexivity.
  - change (last (c :: d :: rest') d0) with (last (d :: rest') d0).
    rewrite <- IH.
    destruct (sub_spaces (d :: rest')) eqn:Es; [|reflexivity].
    pose proof (sub_spaces_hd (d :: rest')) as Hh. rewrite Es in Hh. discriminate.
Qed.

Lemma sub_spaces_In text c : In c (sub_spaces text) -> In c text.
Proof.
  induction text as [|x rest IH]; [now simpl|].
  rewrite sub_spaces_cons. destruct rest as [|d rest']; [now simpl|].
  destruct ((x =? SPACE)%N && (d =? SPACE)%N).
  - intros H. right. now apply IH.
  - intros [H|H]; [now left | right; now apply IH].
Qed.

Lemma sub_spaces_no_double text : has_double_space (sub_spaces text) = false.
Proof.
  induction text as [|c rest IH]; [reflexivity|].
  rewrite sub_spaces_cons. destruct rest as [|d rest']; [reflexivity|].
  destruct ((c =? SPACE)%N && (d =? SPACE)%N) eqn:E; [exact IH|].
  pose proof (sub_spaces_hd (d :: rest')) as Hh.
  destruct (sub_spaces (d :: rest')) as [|e r] eqn:Es; [reflexivity|].
  simpl in Hh. injection Hh as ->.
  change (has_double_space (c :: d :: r))
    with ((c =? SPACE)%N && (d =? SPACE)%N || has_double_space (d :: r)).
  now rewrite E, IH.
Qed.

Lemma sub_spaces_fix text : has_double_space text = false -> sub_spaces text = text.
Proof.
  induction text as [|c rest IH]; [reflexivity|].
  rewrite sub_spaces_cons. destruct rest as [|d rest']; [reflexivity|].
  intros H. simpl has_double_space in H.
  apply orb_false_iff in H. destruct H as [-> H]. now rewrite IH.
Qed.

Lemma sub_spaces_app_LF a b :
  sub_spaces (a ++ LF :: b) = sub_spaces a ++ LF :: sub_spaces b.
Proof.
  induction a as [|c a IH].
  - simpl app. rewrite sub_spaces_cons. destruct b; reflexivity.
  - destruct a as [|d a'].
    + change (sub_spaces ([c] ++ LF :: b)) with
        (if (c =? SPACE)%N && (LF =? SPACE)%N then sub_spaces ([] ++ LF :: b)
         else c :: sub_spaces ([] ++ LF :: b)).
      change (LF =? SPACE)%N with false. rewrite andb_false_r, IH. reflexivity.
    + change (sub_spaces ((c :: d :: a') ++ LF :: b)) with
        (if (c =? SPACE)%N && (d =? SPACE)%N then sub_spaces ((d :: a') ++ LF :: b)
         else c :: sub_spaces ((d :: a') ++ LF :: b)).
      rewrite IH, (sub_spaces_cons c (d :: a')).
      now destruct ((c =? SPACE)%N && (d =? SPACE)%N).
Qed.

Lemma sub_spaces_join ms :
  sub_spaces (join [LF] ms) = join [LF] (map sub_spaces ms).
Proof.
  induction ms as [|m ms IH]; [reflexivity|].
  destruct ms as [|q ms]; [reflexivity|].
  rewrite join_cons2.
  change (m ++ [LF] ++ join [LF] (q :: ms)) with (m ++ LF :: join [LF] (q :: ms)).
  rewrite sub_spaces_app_LF, IH. reflexivity.
Qed.

Lemma sub_spaces_good l : good_line l -> good_line (sub_spaces l).
Proof.
  intros (Hne & (Hh & Hl) & Hlb).
  pose proof (sub_spaces_hd l) as Hhd.
  assert (Hne' : sub_spaces l <> []).
  { intros E. rewrite E in Hhd. destruct l; [now elim Hne | discriminate]. }
  repeat split.
  - exact Hne'.
  - destruct l as [|c l]; [now elim Hne|].
    destruct (sub_spaces (c :: l)); [exact I|].
    simpl in Hhd. injection Hhd as ->. exact Hh.
  - unfold nows_last in *.
    destruct (sub_spaces l) eqn:Es; [exact I|]. rewrite <- Es.
    rewrite sub_spaces_last. destruct l; [now elim Hne | exact Hl].
  - apply Forall_forall. intros c Hc. apply sub_spaces_In in Hc.
    unfold nolb in Hlb. rewrite Forall_forall in Hlb. now apply Hlb.
Qed.

End SubSpacesFacts.

(** ** [_clean_text] *)

Section CleanTextFacts.

Lemma strip_In s c : In c (strip s) -> In c s.
Proof.
  unfold strip, lstrip. intros H.
  destruct (rstrip_prefix (dropwhile isspace s)) as [suf E].
  destruct (dropwhile_suffix isspace s) as [pre E'].
  rewrite E', E. apply in_or_app. right. apply in_or_app. now left.
Qed.

Lemma nonblank_lines_good text : Forall good_line (nonblank_lines text).
Proof.
  unfold nonblank_lines, stripped_lines.
  apply Forall_forall. intros l Hl.
  apply filter_In in Hl. destruct Hl as [Hin Ht].
  apply in_map_iff in Hin. destruct Hin as (x & <- & Hx).
  repeat split.
  - intros E. rewrite E in Ht. discriminate.
  - apply strip_trimmed.
  - apply strip_trimmed.
  - pose proof (splitlines_lines_nolb text) as Hs.
    rewrite Forall_forall in Hs. specialize (Hs x Hx).
    apply Forall_forall. intros c Hc. apply strip_In in Hc.
    unfold nolb in Hs. rewrite Forall_forall in Hs. now apply Hs.
Qed.

Lemma good_line_truthy l : good_line l -> truthy l = true.
Proof. intros (Hne & _). destruct l; [now elim Hne | reflexivity]. Qed.

(** On lines that are all non-empty the counting loop copies its input. *)
Lemma collapse_blank_good n lines :
  Forall good_line lines -> collapse_blank n lines = lines.
Proof.
  revert n. induction lines as [|l lines IH]; intros n H; [reflexivity|].
  inversion H as [|? ? Hl Hls]; subst. simpl.
  rewrite (good_line_truthy _ Hl). simpl. now rewrite IH.
Qed.

Lemma blank_branch_hits_good lines :
  Forall good_line lines -> blank_branch_hits lines = 0.
Proof.
  unfold blank_branch_hits.
  induction lines as [|l lines IH]; intros H; [reflexivity|].
  inversion H as [|? ? Hl Hls]; subst. simpl.
  rewrite (good_line_truthy _ Hl). simpl. now apply IH.
Qed.

Lemma map_sub_spaces_good ms :
  Forall good_line ms -> Forall good_line (map sub_spaces ms).
Proof.
  intros H. apply Forall_forall. intros l Hl.
  apply in_map_iff in Hl. destruct Hl as (x & <- & Hx).
  rewrite Forall_forall in H. now apply sub_spaces_good, H.
Qed.

(** The closed form of [_clean_text]. *)
Lemma clean_text_shape text :
  _clean_text text = join [LF] (map sub_spaces (nonblank_lines text)).
Proof.
  unfold _clean_text.
  pose proof (nonblank_lines_good text) as Hg.
  rewrite collapse_blank_good by exact Hg.
  rewrite sub_spaces_join.
  apply strip_fix, join_good, map_sub_spaces_good, Hg.
Qed.

Lemma nonblank_lines_join ms :
  Forall good_line ms -> nonblank_lines (join [LF] ms) = ms.
Proof.
  intros H. unfold nonblank_lines, stripped_lines.
  rewrite splitlines_join by exact H.
  induction ms as [|m ms IH]; [reflexivity|].
  inversion H as [|? ? Hm Hms]; subst. simpl.
  rewrite strip_fix by apply Hm. rewrite (good_line_truthy _ Hm).
  now rewrite IH.
Qed.

Lemma map_sub_spaces_fix ms :
  map sub_spaces (map sub_spaces ms) = map sub_spaces ms.
Proof.
  rewrite map_map. apply map_ext. intros l.
  apply sub_spaces_fix, sub_spaces_no_double.
Qed.

End CleanTextFacts.

(** C9.  The whitespace cleaner is idempotent: running [_clean_text] on its
    own output gives that output back, for every input string. *)
Theorem clean_text_idempotent (s : str) :
  _clean_text (_clean_text s) = _clean_text s.
Proof.
  rewrite (clean_text_shape s).
  set (ms := map sub_spaces (nonblank_lines s)).
  assert (Hg : Forall good_line ms)
    by apply map_sub_spaces_good, nonblank_lines_good.
  rewrite clean_text_shape, nonblank_lines_join by exact Hg.
  unfold ms. now rewrite map_sub_spaces_fix.
Qed.

(** C10.  For every input, the output of [_clean_text] has no blank line:
    each of its lines is non-empty, carries no white space at either end and
    no two spaces in a row, and the output as a whole has no white space at
    its ends.  The loop that would collapse runs of blank lines never takes
    its [line == ""] branch, so it copies the lines it is given. *)
Theorem clean_text_no_blank_lines (text : str) :
  Forall (fun line => line <> [] /\ strip line = line /\ double_space_free line)
         (splitlines (_clean_text text))
  /\ strip (_clean_text text) = _clean_text text
  /\ blank_branch_hits (nonblank_lines text) = 0
  /\ collapse_blank 0 (nonblank_lines text) = nonblank_lines text.
Proof.
  pose proof (nonblank_lines_good text) as Hg.
  pose proof (map_sub_spaces_good _ Hg) as Hg'.
  repeat split.
  - rewrite clean_text_shape, splitlines_join by exact Hg'.
    apply Forall_forall. intros l Hl.
    pose proof Hg' as Hall. rewrite Forall_forall in Hall.
    destruct (Hall l Hl) as (Hne & Htr & _).
    repeat split; [exact Hne | now apply strip_fix |].
    apply in_map_iff in Hl. destruct Hl as (x & <- & _).
    apply has_double_space_spec, sub_spaces_no_double.
  - rewrite clean_text_shape. apply strip_fix, join_good, Hg'.
  - now apply blank_branch_hits_good.
  - now apply collapse_blank_good.
Qed.

(** The cleaner on a small text: blank lines go, runs of spaces shrink, the
    ends of the lines are trimmed. *)
Example clean_text_example :
  _clean_text (u "  a   b  " ++ [CR; LF] ++ u "   " ++ [LF; LF]
               ++ [9%N] ++ u "c  d" ++ [LF])
  = u "a b" ++ [LF] ++ u "c d".
Proof. vm_compute. reflexivity. Qed.

(** ** [WebScraper.scrape] *)

Section ScrapeFacts.

Import WebScraper ScraperSpec.

Variable w : world.

Lemma classify_on_exception url e :
  classify (on_exception url e) = Some (failure_of_exception e).
Proof.
  unfold on_exception, failure_of_exception.
  destruct (is_Timeout e); [now vm_compute|].
  destruct (is_ConnectionError e); [now vm_compute|].
  destruct (http_status e) as [status|]; [|now vm_compute].
  destruct (status =? 403)%Z; [now vm_compute|].
  destruct (status =? 404)%Z; now vm_compute.
Qed.

Lemma classify_success url title text :
  classify (header url title ++ truncate text) = None.
Proof. now vm_compute. Qed.

Lemma classify_extract url content_type text :
  classify (extract w url content_type text)
  = failure_of_document w content_type text.
Proof.
  unfold extract, failure_of_document, normalized_text.
  destruct (contains (WebSearch.get_str content_type) (u "text/html"));
    [|now vm_compute].
  simpl negb. cbv iota.
  destruct (main_content (remove_noise (html_parser w text))) as [content|];
    [|now vm_compute].
  destruct (_clean_text (get_text [LF] content));
    [now vm_compute | apply classify_success].
Qed.

End ScrapeFacts.


Section TruncateFacts.

Import WebScraper.

Lemma truncate_long text :
  MAX_CHARS < List.length text ->
  truncate text = firstn MAX_CHARS text ++ TRUNCATION_MARKER
  /\ List.length (firstn MAX_CHARS text) = MAX_CHARS.
Proof.
  intros H. unfold truncate.
  destruct (Nat.ltb_spec MAX_CHARS (List.length text)) as [_|H']; [|lia].
  split; [reflexivity|]. rewrite length_firstn. lia.
Qed.

Lemma truncate_short text :
  List.length text <= MAX_CHARS -> truncate text = text.
Proof.
  intros H. unfold truncate.
  destruct (Nat.ltb_spec MAX_CHARS (List.length text)) as [H'|_]; [lia|].
  reflexivity.
Qed.

Lemma truncate_length text :
  List.length (truncate text) <= MAX_CHARS + List.length TRUNCATION_MARKER.
Proof.
  destruct (Nat.lt_ge_cases MAX_CHARS (List.length text)) as [H|H].
  - destruct (truncate_long text H) as [-> Hl]. rewrite length_app, Hl. lia.
  - rewrite (truncate_short text H). lia.
Qed.

End TruncateFacts.

(** C3.  On a successful extraction [scrape] returns the header followed
    by the body.  The body is the normalized text when that has at most 3000
    characters; otherwise it is the first 3000 characters of it, exactly,
    followed by the truncation marker.  The returned string is never longer
    than the header, 3000 characters and the marker together. *)
Theorem scrape_output_bounded (w : world) (st : State) (url : str) :
  ScraperSpec.scrape_failure w (trace st) url = None ->
  exists st' status content_type body text,
    requests_get w (trace st) url = GetResponse status content_type body
    /\ ScraperSpec.normalized_text w body = Some text
    /\ let head :=
         WebScraper.header url
           (WebScraper.title_text
              (WebScraper.remove_noise (html_parser w body))) in
       WebScraper.scrape w url st = (Ok (head ++ WebScraper.truncate text), st')
       /\ (WebScraper.MAX_CHARS < List.length text ->
           WebScraper.truncate text
           = firstn WebScraper.MAX_CHARS text ++ WebScraper.TRUNCATION_MARKER
           /\ List.length (firstn WebScraper.MAX_CHARS text) = WebScraper.MAX_CHARS)
       /\ (List.length text <= WebScraper.MAX_CHARS ->
           WebScraper.truncate text = text)
       /\ List.length (head ++ WebScraper.truncate text)
          <= List.length head + WebScraper.MAX_CHARS
             + List.length WebScraper.TRUNCATION_MARKER
       /\ WebScraper.MAX_CHARS = 3000
       /\ WebScraper.TRUNCATION_MARKER
          = [LF; LF] ++ u "[... truncated at 3000 chars ...]".
Proof.
  unfold ScraperSpec.scrape_failure, ScraperSpec.accepted_scheme, WebScraper.scrape.
  destruct (startswith url (u "http://") || startswith url (u "https://"));
    [|discriminate].
  cbv beta iota delta [negb bind network]. cbn [trace memory registry].
  destruct (requests_get w (trace st) url) as [e|status content_type body];
    [discriminate|].
  destruct (is_error_status status); [discriminate|].
  unfold ScraperSpec.failure_of_document, ScraperSpec.normalized_text,
    WebScraper.extract.
  destruct (contains (WebSearch.get_str content_type) (u "text/html"));
    [|discriminate].
  cbv beta iota delta [negb].
  destruct (WebScraper.main_content
              (WebScraper.remove_noise (html_parser w body)))
    as [content|] eqn:Em; [|discriminate].
  destruct (_clean_text (WebScraper.get_text [LF] content)) as [|c text] eqn:E;
    [discriminate|].
  intros _. eexists _, status, content_type, body, (c :: text).
  split; [reflexivity|]. split; [now rewrite Em, E|].
  cbv zeta. split; [reflexivity|].
  split; [apply truncate_long|]. split; [apply truncate_short|].
  split; [|split; [reflexivity | vm_compute; reflexivity]].
  rewrite length_app. pose proof (truncate_length (c :: text)). lia.
Qed.

Lemma scrape_output_bounded_witness :
  ScraperSpec.scrape_failure ScraperSpec.long_world
    (trace ScraperSpec.initial_state) (u "https://example.com/a") = None
  /\ exists st' status content_type body text,
      requests_get ScraperSpec.long_world (trace ScraperSpec.initial_state)
        (u "https://example.com/a") = GetResponse status content_type body
      /\ ScraperSpec.normalized_text ScraperSpec.long_world body = Some text
      /\ let head :=
           WebScraper.header (u "https://example.com/a")
             (WebScraper.title_text
                (WebScraper.remove_noise
                   (html_parser ScraperSpec.long_world body))) in
         WebScraper.scrape ScraperSpec.long_world (u "https://example.com/a")
           ScraperSpec.initial_state
         = (Ok (head ++ WebScraper.truncate text), st')
         /\ (WebScraper.MAX_CHARS < List.length text ->
             WebScraper.truncate text
             = firstn WebScraper.MAX_CHARS text ++ WebScraper.TRUNCATION_MARKER
             /\ List.length (firstn WebScraper.MAX_CHARS text)
                = WebScraper.MAX_CHARS)
         /\ (List.length text <= WebScraper.MAX_CHARS ->
             WebScraper.truncate text = text)
         /\ List.length (head ++ WebScraper.truncate text)
            <= List.length head + WebScraper.MAX_CHARS
               + List.length WebScraper.TRUNCATION_MARKER
         /\ WebScraper.MAX_CHARS = 3000
         /\ WebScraper.TRUNCATION_MARKER
            = [LF; LF] ++ u "[... truncated at 3000 chars ...]".
Proof.
  split; [vm_compute; reflexivity|].
  apply (scrape_output_bounded ScraperSpec.long_world ScraperSpec.initial_state
           (u "https://example.com/a")).
  vm_compute; reflexivity.
Defined.

(** C5.  The pattern for hidden styles is compiled without [re.I]: a block
    styled [display:none] is removed, the same block styled [DISPLAY:NONE]
    is not, and its text reaches the extracted output. *)
Theorem uppercase_hidden_style_is_kept :
  WebScraper.is_hidden (u "div") [(u "style", u "display:none")] = true
  /\ WebScraper.is_hidden (u "div") [(u "style", u "DISPLAY:NONE")] = false
  /\ WebScraper.remove_noise [ScraperSpec.hidden_lower] = []
  /\ WebScraper.remove_noise [ScraperSpec.hidden_upper] = [ScraperSpec.hidden_upper]
  /\ ScraperSpec.normalized_text ScraperSpec.sample_world []
     = Some (u "Hello world" ++ [LF] ++ u "UPPER").
Proof. repeat split; vm_compute; reflexivity. Qed.

(** ** [WebSearch.search_and_format] *)

Section SearchFacts.

Import WebSearch SearchSpec.

Lemma format_organic_numbered results : forall i,
  format_organic i results
  = map entry (filter (fun p => kept (snd p)) (numbered i results)).
Proof.
  unfold numbered.
  induction results as [|r results IH]; intros i; [reflexivity|].
  simpl. unfold kept at 1. simpl snd.
  destruct (truthy (get_str (title r)) && truthy (get_str (link r))).
  - simpl. now rewrite IH.
  - now rewrite IH.
Qed.

Lemma join_truthy sep p rest : truthy p = true -> truthy (join sep (p :: rest)) = true.
Proof.
  intros H. destruct p as [|c p]; [discriminate|].
  destruct rest; reflexivity.
Qed.

Lemma entry_truthy p : truthy (entry p) = true.
Proof. destruct p as [i r]. reflexivity. Qed.

Lemma slice_to_nonneg (results : list OrganicResult) n :
  (0 <= n)%Z -> slice_to results n = firstn (Z.to_nat n) results.
Proof.
  intros H. unfold slice_to.
  destruct (Z.ltb_spec n 0) as [H'|_]; [lia | reflexivity].
Qed.

Lemma formatted_results_lines data n :
  (0 <= n)%Z ->
  formatted_results data n = answer_lines data ++ entries data (Z.to_nat n).
Proof.
  intros H. unfold formatted_results, answer_lines, entries, results_of.
  f_equal.
  - destruct (answerBox data) as [[[|c a]|]|]; reflexivity.
  - destruct (organic data) as [results|].
    + now rewrite slice_to_nonneg, format_organic_numbered.
    + now rewrite firstn_nil.
Qed.

Lemma lines_truthy data n :
  Forall (fun line => truthy line = true) (answer_lines data ++ entries data n).
Proof.
  apply Forall_app. split.
  - unfold answer_lines.
    destruct (answerBox data) as [[[|c a]|]|]; repeat constructor.
  - unfold entries. apply Forall_forall. intros l Hl.
    apply in_map_iff in Hl. destruct Hl as (x & <- & _). apply entry_truthy.
Qed.

Lemma entries_length data n : List.length (entries data n) <= n.
Proof.
  unfold entries, numbered. rewrite length_map.
  etransitivity; [apply filter_length_le|].
  rewrite length_combine, length_seq, Nat.min_id, length_firstn. lia.
Qed.

End SearchFacts.

(** C4, as amended.  When the search backend answers with JSON and the
    requested number of results is not negative, the formatted output is
    made of the [DIRECT ANSWER:] line, present exactly when the answer box
    holds a non-empty answer, followed by one entry for each of the first
    [num_results] results that has both a title and a URL; an entry carries
    the position of its result in the backend's list, the title, the
    summary and the URL; there are at most [num_results] entries; the lines
    are joined by newlines, and when there is no line at all the output is
    exactly "No results found.". *)
Theorem search_and_format_output (w : world) (st : State) (query : str)
    (num_results : Z) (status : Z) (data : SearchData) :
  requests_post w (trace st) query num_results = PostResponse status data ->
  is_error_status status = false ->
  (0 <= num_results)%Z ->
  exists st',
    let lines :=
      SearchSpec.answer_lines data
      ++ SearchSpec.entries data (Z.to_nat num_results) in
    WebSearch.search_and_format w query num_results st
    = (Ok match lines with
          | [] => WebSearch.NO_RESULTS
          | _ :: _ => join [LF] lines
          end, st')
    /\ List.length (SearchSpec.entries data (Z.to_nat num_results))
       <= Z.to_nat num_results.
Proof.
  intros Hpost Hstatus Hn.
  unfold WebSearch.search_and_format, WebSearch.web_search.
  cbv beta iota delta [bind with_registry network]. cbn [trace memory registry].
  rewrite Hpost, Hstatus. cbv beta iota delta [ret].
  eexists. cbv zeta. split; [|apply entries_length].
  rewrite formatted_results_lines by exact Hn.
  pose proof (lines_truthy data (Z.to_nat num_results)) as Hl.
  destruct (SearchSpec.answer_lines data
            ++ SearchSpec.entries data (Z.to_nat num_results)) as [|p rest].
  - reflexivity.
  - inversion Hl as [|? ? Hp _]; subst.
    now rewrite (join_truthy [LF] p rest Hp).
Qed.

Lemma search_and_format_output_witness :
  exists st',
    let lines :=
      SearchSpec.answer_lines SearchSpec.full_data
      ++ SearchSpec.entries SearchSpec.full_data (Z.to_nat 5) in
    WebSearch.search_and_format (SearchSpec.search_world SearchSpec.full_data)
      (u "capital of France") 5 ScraperSpec.initial_state
    = (Ok match lines with
          | [] => WebSearch.NO_RESULTS
          | _ :: _ => join [LF] lines
          end, st')
    /\ List.length (SearchSpec.entries SearchSpec.full_data (Z.to_nat 5))
       <= Z.to_nat 5.
Proof.
  apply (search_and_format_output (SearchSpec.search_world SearchSpec.full_data)
           ScraperSpec.initial_state (u "capital of France") 5 200
           SearchSpec.full_data).
  - reflexivity.
  - reflexivity.
  - lia.
Defined.

(** C4, as stated, fails: a result that has a title and a summary but no
    URL is not missing both, yet it is skipped; the output is "No results
    found." where the statement promises an entry. *)
Lemma title_only_entry_is_skipped :
  fst (WebSearch.search_and_format
         (SearchSpec.search_world SearchSpec.title_only_data)
         (u "fusion") 5 ScraperSpec.initial_state)
  = Ok WebSearch.NO_RESULTS
  /\ SearchSpec.claimed_output SearchSpec.title_only_data 5
     <> WebSearch.NO_RESULTS.
Proof. split; [vm_compute; reflexivity | vm_compute; discriminate]. Qed.

(** ** The router and the loop *)

Section LoopFacts.

Import LoopSpec.

Variable w : world.

Lemma bind_ok {A B} (c : M A) (k : A -> M B) st a st' :
  c st = (Ok a, st') -> bind c k st = k a st'.
Proof. intros H. unfold bind. now rewrite H. Qed.

Lemma model_calls_app a b : model_calls (a ++ b) = model_calls a + model_calls b.
Proof. unfold model_calls. now rewrite filter_app, length_app. Qed.

Lemma scrape_effect url st :
  exists out st',
    WebScraper.scrape w url st = (Ok out, st')
    /\ memory st' = memory st
    /\ model_calls (trace st') = model_calls (trace st).
Proof.
  unfold WebScraper.scrape.
  destruct (negb (startswith url (u "http://") || startswith url (u "https://"))).
  - do 2 eexists. repeat split.
  - cbv beta iota delta [bind network]. cbn [trace memory registry].
    assert (Hc : model_calls (trace st ++ [HttpGet url]) = model_calls (trace st))
      by (rewrite model_calls_app; unfold model_calls at 2; simpl; lia).
    destruct (requests_get w (trace st) url) as [e|status content_type text].
    + do 2 eexists. split; [reflexivity|]. split; [reflexivity | exact Hc].
    + destruct (is_error_status status);
        (do 2 eexists; split; [reflexivity|]; split; [reflexivity | exact Hc]).
Qed.

Hypothesis search_answers : search_backend_answers w.

Lemma search_effect query num_results st :
  exists out st',
    WebSearch.search_and_format w query num_results st = (Ok out, st')
    /\ memory st' = memory st
    /\ model_calls (trace st') = model_calls (trace st).
Proof.
  unfold WebSearch.search_and_format, WebSearch.web_search.
  cbv beta iota delta [bind with_registry network]. cbn [trace memory registry].
  destruct (search_answers (trace st) query num_results)
    as (status & data & -> & ->).
  do 2 eexists. split; [reflexivity|]. split; [reflexivity|].
  cbn [trace]. rewrite model_calls_app. unfold model_calls at 2. simpl. lia.
Qed.

Lemma execute_effect tool_name tool_input st :
  exists out st',
    Registry.execute w tool_name tool_input st = (Ok out, st')
    /\ memory st' = memory st
    /\ model_calls (trace st') = model_calls (trace st).
Proof.
  unfold Registry.execute.
  destruct (PyStr.eqb tool_name (u "web_search")).
  - cbv beta iota zeta delta [bind with_registry].
    match goal with
    | |- context [WebSearch.search_and_format w ?q ?n ?s] =>
        destruct (search_effect q n s) as (out & st' & -> & Hm & Ht)
    end.
    exists out, st'. now repeat split.
  - destruct (PyStr.eqb tool_name (u "web_scraper")).
    + cbv beta iota zeta delta [bind with_registry].
      match goal with
      | |- context [WebScraper.scrape w ?u ?s] =>
          destruct (scrape_effect u s) as (out & st' & -> & Hm & Ht)
      end.
      exists out, st'. now repeat split.
    + do 2 eexists. repeat split.
Qed.

Lemma execute_blocks_effect content : forall st,
  exists results st',
    AgentLoop.execute_blocks w content st = (Ok results, st')
    /\ executed_in_order w st content results st'
    /\ map tool_use_id results = request_ids content
    /\ memory st' = memory st
    /\ model_calls (trace st') = model_calls (trace st).
Proof.
  induction content as [|block rest IH]; intros st.
  - exists [], st. repeat split. constructor.
  - destruct block as [text|id name input|type].
    + destruct (IH st) as (results & st' & E & Hx & Hi & Hm & Ht).
      exists results, st'. repeat split; try assumption. now constructor.
    + destruct (execute_effect name input st) as (out & st1 & E1 & Hm1 & Ht1).
      destruct (IH st1) as (results & st' & E & Hx & Hi & Hm & Ht).
      exists ({| tool_use_id := id; result_content := out |} :: results), st'.
      split.
      { simpl. rewrite (bind_ok _ _ _ _ _ E1), (bind_ok _ _ _ _ _ E). reflexivity. }
      split; [now apply executed_tool with (st1 := st1)|].
      split; [simpl; now rewrite Hi|].
      split; congruence.
    + destruct (IH st) as (results & st' & E & Hx & Hi & Hm & Ht).
      exists results, st'. repeat split; try assumption. now constructor.
Qed.

End LoopFacts.

Section StepFacts.

Import LoopSpec.

Variable w : world.
Hypothesis search_answers : search_backend_answers w.


(** One iteration of the loop on a response that asks for tools. *)
Lemma step_tool_use system st response :
  messages_create w (trace st) system (get_messages (memory st))
  = ModelResponds response ->
  stop_reason response = u "tool_use" ->
  exists results st1,
    executed_in_order w (after_response system response st)
      (response_content response) results st1
    /\ map tool_use_id results = request_ids (response_content response)
    /\ memory st1 = memory (after_response system response st)
    /\ model_calls (trace st1) = model_calls (trace st) + 1
    /\ forall step rest,
         AgentLoop.steps w system (step :: rest) st
         = AgentLoop.steps w system rest (observed results st1).
Proof.
  intros Hmodel Hstop.
  destruct (execute_blocks_effect w search_answers (response_content response)
              (after_response system response st))
    as (results & st1 & E & Hx & Hi & Hm & Ht).
  exists results, st1.
  split; [exact Hx|]. split; [exact Hi|]. split; [exact Hm|].
  split.
  { rewrite Ht. unfold after_response. cbn [trace].
    rewrite model_calls_app. unfold model_calls at 2. simpl. lia. }
  intros step rest. unfold after_response in E.
  cbn [AgentLoop.steps].
  cbv beta iota delta [AgentLoop.create bind get_state network ret
                       AgentLoop.act_and_observe with_memory
                       AgentLoop._execute_tools].
  cbn [memory trace registry].
  rewrite Hmodel. cbv beta iota. rewrite Hstop.
  change (PyStr.eqb (u "tool_use") (u "end_turn")) with false.
  change (PyStr.eqb (u "tool_use") (u "tool_use")) with true.
  cbv beta iota. cbn [memory trace registry]. rewrite E. reflexivity.
Qed.

Hypothesis model_requests : always_requests_actions w.

Lemma steps_exhaust system range : forall st,
  exists st',
    AgentLoop.steps w system range st = (Ok AgentLoop.FALLBACK_MESSAGE, st')
    /\ model_calls (trace st') = model_calls (trace st) + List.length range.
Proof.
  induction range as [|step rest IH]; intros st.
  - exists st. split; [reflexivity | simpl; lia].
  - destruct (model_requests (trace st) system (get_messages (memory st)))
      as (response & Hmodel & Hstop).
    destruct (step_tool_use system st response Hmodel Hstop)
      as (results & st1 & _ & _ & _ & Ht & Hstep).
    destruct (IH (observed results st1)) as (st' & E & Ht').
    exists st'. split; [now rewrite Hstep|].
    rewrite Ht'. unfold observed. cbn [trace]. rewrite Ht. simpl. lia.
Qed.

End StepFacts.





(** ** Alternation of the roles *)

Section AlternationFacts.

Import LoopSpec.

Variable w : world.

Lemma alternates_app a : forall expected b,
  alternates expected (a ++ b)
  = alternates expected a && alternates (next_role expected a) b.
Proof.
  induction a as [|m a IH]; intros expected b; [reflexivity|].
  simpl. rewrite IH. unfold next_role. now rewrite andb_assoc.
Qed.

Lemma next_role_app a b expected :
  next_role expected (a ++ b) = next_role (next_role expected a) b.
Proof. unfold next_role. now rewrite fold_left_app. Qed.

(** The tools leave the memory as it is, whether they return or raise. *)
Lemma scrape_memory url st : memory (snd (WebScraper.scrape w url st)) = memory st.
Proof.
  unfold WebScraper.scrape.
  destruct (negb (startswith url (u "http://") || startswith url (u "https://")));
    [reflexivity|].
  cbv beta iota delta [bind network]. cbn [trace memory registry].
  destruct (requests_get w (trace st) url) as [e|status content_type text];
    [reflexivity|].
  destruct (is_error_status status); reflexivity.
Qed.

Lemma search_memory query n st :
  memory (snd (WebSearch.search_and_format w query n st)) = memory st.
Proof.
  unfold WebSearch.search_and_format, WebSearch.web_search.
  cbv beta iota delta [bind with_registry network]. cbn [trace memory registry].
  destruct (requests_post w (trace st) query n) as [e|status data];
    [reflexivity|].
  destruct (is_error_status status); reflexivity.
Qed.

Lemma execute_memory tool_name tool_input st :
  memory (snd (Registry.execute w tool_name tool_input st)) = memory st.
Proof.
  unfold Registry.execute.
  destruct (PyStr.eqb tool_name (u "web_search")).
  - cbv beta iota zeta delta [bind with_registry].
    match goal with
    | |- context [WebSearch.search_and_format w ?q ?n ?s] =>
        pose proof (search_memory q n s) as H;
        destruct (WebSearch.search_and_format w q n s) as [[out|e] st']
    end; exact H.
  - destruct (PyStr.eqb tool_name (u "web_scraper")); [|reflexivity].
    cbv beta iota zeta delta [bind with_registry].
    match goal with
    | |- context [WebScraper.scrape w ?u ?s] =>
        pose proof (scrape_memory u s) as H;
        destruct (WebScraper.scrape w u s) as [[out|e] st']
    end; exact H.
Qed.

Lemma execute_blocks_memory content : forall st,
  memory (snd (AgentLoop.execute_blocks w content st)) = memory st.
Proof.
  induction content as [|block rest IH]; intros st; [reflexivity|].
  destruct block as [text|id name input|type]; simpl; try apply IH.
  unfold bind.
  pose proof (execute_memory name input st) as H1.
  destruct (Registry.execute w name input st) as [[out|e] st1]; [|exact H1].
  pose proof (IH st1) as H2.
  destruct (AgentLoop.execute_blocks w rest st1) as [[results|e] st2];
    simpl in *; congruence.
Qed.

(** From a transcript that alternates and ends with a user message, the
    loop leaves a transcript that alternates, however it ends. *)
Lemma steps_keep_alternation system range : forall st,
  well_formed (get_messages (memory st)) = true ->
  next_role user (get_messages (memory st)) = assistant ->
  well_formed (get_messages (memory (snd (AgentLoop.steps w system range st))))
  = true.
Proof.
  induction range as [|step rest IH]; intros st Hwf Hnext; [exact Hwf|].
  cbn [AgentLoop.steps].
  cbv beta iota delta [AgentLoop.create bind get_state network ret
                       AgentLoop.act_and_observe with_memory
                       AgentLoop._execute_tools].
  cbn [memory trace registry].
  destruct (messages_create w (trace st) system (get_messages (memory st)))
    as [msg|response]; [exact Hwf|].
  cbv beta iota.
  assert (Hsaved : forall tail,
    well_formed (get_messages (memory st)
                 ++ {| role := assistant;
                       content := Blocks (response_content response) |} :: tail)
    = alternates user tail).
  { intros tail. unfold well_formed. rewrite alternates_app.
    fold (well_formed (get_messages (memory st))). rewrite Hwf, Hnext.
    reflexivity. }
  destruct (PyStr.eqb (stop_reason response) (u "end_turn")).
  - cbn [snd memory]. unfold add_assistant_message, get_messages.
    cbn [_messages]. apply (Hsaved []).
  - destruct (PyStr.eqb (stop_reason response) (u "tool_use")); [|exact Hwf].
    cbn [memory trace registry].
    match goal with
    | |- context [AgentLoop.execute_blocks w ?c ?s] =>
        pose proof (execute_blocks_memory c s) as Hmem;
        destruct (AgentLoop.execute_blocks w c s) as [[results|e] st1]
    end; cbn [snd memory] in Hmem.
    + apply IH; cbn [memory]; rewrite Hmem;
        unfold add_tool_results, add_assistant_message, get_messages;
        cbn [_messages]; rewrite <- app_assoc.
      * etransitivity; [apply (Hsaved [_]) | reflexivity].
      * rewrite next_role_app. fold (get_messages (memory st)).
        rewrite Hnext. reflexivity.
    + cbn [snd]. rewrite Hmem. unfold add_assistant_message, get_messages.
      cbn [_messages]. apply (Hsaved []).
Qed.

(** A question put after an answer, or first of all, keeps the transcript
    alternating through the whole run. *)
Lemma run_keeps_alternation question st :
  well_formed (get_messages (memory st)) = true ->
  next_role user (get_messages (memory st)) = user ->
  well_formed (get_messages (memory (snd (AgentLoop.run w question st)))) = true.
Proof.
  intros Hwf Hnext. unfold AgentLoop.run.
  cbv beta iota delta [bind with_memory get_state].
  cbn [memory trace registry].
  apply steps_keep_alternation; cbn [memory];
    unfold add_user_message, get_messages; cbn [_messages].
  - unfold get_messages in Hwf, Hnext. unfold well_formed in *.
    now rewrite alternates_app, Hwf, Hnext.
  - unfold get_messages in Hnext. now rewrite next_role_app, Hnext.
Qed.

End AlternationFacts.

(** C1.  Nothing in [ConversationMemory] or in [run] keeps the roles
    alternating.  When the model stops for another reason than [end_turn]
    or [tool_use], [run] returns without saving a response, and the next
    question is a second user message in a row; the same happens after a
    run that used up its ten steps, whose transcript ends with tool
    results.  On the memory alone, two questions in a row do it. *)
Theorem second_question_breaks_alternation :
  let q1 := u "What is new in fusion energy?" in
  let q2 := u "And in fission?" in
  let aborted := snd (AgentLoop.run ScraperSpec.sample_world q1 ScraperSpec.initial_state) in
  let exhausted := snd (AgentLoop.run LoopSpec.tool_world q1 ScraperSpec.initial_state) in
  map role (get_messages (memory aborted)) = [user]
  /\ map role (get_messages
                (memory (snd (AgentLoop.run ScraperSpec.sample_world q2 aborted))))
     = [user; user]
  /\ LoopSpec.well_formed (get_messages (memory exhausted)) = true
  /\ LoopSpec.well_formed
       (get_messages (memory (snd (AgentLoop.run LoopSpec.tool_world q2 exhausted))))
     = false
  /\ LoopSpec.well_formed
       (get_messages (add_user_message q2 (add_user_message q1 Conversation.__init__)))
     = false.
Proof. repeat split; vm_compute; reflexivity. Qed.

Section RegistryFacts.

Variable w : world.

(** The number of results travels from the tool input to the request
    unchanged. *)
Lemma execute_search_posts query n st :
  trace (snd (Registry.execute w (u "web_search")
                {| input_query := Some query; input_num_results := Some n;
                   input_url := None |} st))
  = trace st ++ [SearchPost query n].
Proof.
  unfold Registry.execute.
  change (PyStr.eqb (u "web_search") (u "web_search")) with true.
  cbv beta iota zeta delta [bind with_registry WebSearch.search_and_format
                            WebSearch.web_search network input_query
                            input_num_results WebSearch.get_str].
  cbn [trace memory registry].
  destruct (requests_post w (trace st) query n) as [e|status data];
    [reflexivity|].
  destruct (is_error_status status); reflexivity.
Qed.

End RegistryFacts.

(** C8.  No part of the code caps [num_results]: a search request for
    fifty results is posted to the backend with [num] fifty, and fifty is
    what the searcher remembers. *)
Theorem fifty_results_reach_the_backend :
  let st := snd (Registry.execute ScraperSpec.sample_world (u "web_search")
                   LoopSpec.fifty_results ScraperSpec.initial_state) in
  trace st = [SearchPost (u "fusion energy") 50]
  /\ searcher_num_results (registry st) = 50%Z.
Proof. split; vm_compute; reflexivity. Qed.

(* ------------------------------------------------------------------ *)
(** * Further properties *)

(** ** The conversation memory *)

Section MemoryFacts.

Import LoopSpec MoreSpec.

Lemma eqb_eq a : forall b, PyStr.eqb a b = true <-> a = b.
Proof.
  induction a as [|x a IH]; intros [|y b]; simpl; split; intros H;
    try reflexivity; try discriminate.
  - apply andb_true_iff in H. destruct H as [H1 H2].
    apply N.eqb_eq in H1. apply IH in H2. now subst.
  - injection H as -> ->. rewrite N.eqb_refl. now apply IH.
Qed.

Lemma eqb_neq a b : a <> b -> PyStr.eqb a b = false.
Proof.
  intros H. destruct (PyStr.eqb a b) eqn:E; [|reflexivity].
  apply eqb_eq in E. contradiction.
Qed.

Lemma assistant_messages_app a b :
  assistant_messages (a ++ b) = assistant_messages a + assistant_messages b.
Proof. unfold assistant_messages. now rewrite filter_app, length_app. Qed.

Lemma apply_op_counts self op :
  _turn_count self = assistant_messages (_messages self) ->
  _turn_count (apply_op self op) = assistant_messages (_messages (apply_op self op)).
Proof.
  assert (Hone : forall m, assistant_messages [m]
                           = if role_eqb (role m) assistant then 1 else 0).
  { intros m. unfold assistant_messages. simpl.
    now destruct (role_eqb (role m) assistant). }
  intros H.
  destruct op;
    unfold apply_op, add_user_message, add_assistant_message,
      add_tool_results, clear;
    cbn [_messages _turn_count];
    rewrite ?assistant_messages_app, ?Hone, ?H; cbn [role role_eqb];
    try reflexivity; lia.
Qed.

Lemma apply_ops_counts ops : forall self,
  _turn_count self = assistant_messages (_messages self) ->
  _turn_count (apply_ops ops self)
  = assistant_messages (_messages (apply_ops ops self)).
Proof.
  induction ops as [|op ops IH]; intros self H; [exact H|].
  apply IH, apply_op_counts, H.
Qed.

Lemma assistant_messages_pos msgs :
  0 < assistant_messages msgs <->
  exists m, In m msgs /\ role m = assistant.
Proof.
  unfold assistant_messages. induction msgs as [|m msgs IH]; simpl.
  - split; [lia | intros (m & [] & _)].
  - destruct (role m) eqn:E; simpl.
    + rewrite IH. split.
      * intros (m' & Hin & Hr). exists m'. auto.
      * intros (m' & [<-|Hin] & Hr); [congruence | now exists m'].
    + split; [|lia]. intros _. exists m. auto.
Qed.

End MemoryFacts.

(** X1.  After any sequence of writes to a fresh [ConversationMemory]
    (questions, responses, tool results and clears in any order) the turn
    counter equals the number of assistant messages in the transcript, and
    [is_followup] holds exactly when the transcript holds an assistant
    message, whether that was an answer or a request for tools. *)
Theorem turn_count_counts_assistant_messages (ops : list MoreSpec.Op) :
  let self := MoreSpec.apply_ops ops Conversation.__init__ in
  _turn_count self = MoreSpec.assistant_messages (get_messages self)
  /\ (is_followup self = true <->
      exists m, In m (get_messages self) /\ role m = assistant).
Proof.
  cbv zeta.
  assert (H : _turn_count (MoreSpec.apply_ops ops Conversation.__init__)
              = MoreSpec.assistant_messages
                  (_messages (MoreSpec.apply_ops ops Conversation.__init__)))
    by (apply apply_ops_counts; reflexivity).
  split; [exact H|].
  unfold is_followup, get_messages. rewrite H, Nat.ltb_lt.
  apply assistant_messages_pos.
Qed.

(** ** The scraper and the router: what they change *)

Section RouterFacts.

Import LoopSpec MoreSpec ScraperSpec.

Variable w : world.

Lemma contains_here s needle : startswith s needle = true -> contains s needle = true.
Proof. intros H. destruct s; simpl; now rewrite H. Qed.

Lemma startswith_app needle rest : startswith (needle ++ rest) needle = true.
Proof.
  induction needle as [|c needle IH]; [reflexivity|].
  simpl. now rewrite N.eqb_refl.
Qed.

Lemma contains_app pre needle rest : contains (pre ++ needle ++ rest) needle = true.
Proof.
  induction pre as [|c pre IH].
  - apply contains_here. exact (startswith_app needle rest).
  - simpl app. simpl contains. rewrite IH. apply orb_true_r.
Qed.

Lemma scrape_state url st :
  exists out,
    WebScraper.scrape w url st = (Ok out, fetched url st)
    /\ out <> []
    /\ (accepted_scheme url = false -> out = WebScraper.invalid_url_message url).
Proof.
  unfold WebScraper.scrape, fetched, accepted_scheme.
  destruct (startswith url (u "http://") || startswith url (u "https://")).
  - cbv beta iota delta [negb bind network]. cbn [trace memory registry].
    destruct (requests_get w (trace st) url) as [e|status content_type text].
    + eexists. split; [reflexivity|]. split; [|discriminate].
      unfold WebScraper.on_exception.
      destruct (is_Timeout e); [discriminate|].
      destruct (is_ConnectionError e); [discriminate|].
      destruct (http_status e) as [s|]; [|discriminate].
      destruct (s =? 403)%Z; [discriminate|].
      destruct (s =? 404)%Z; discriminate.
    + destruct (is_error_status status).
      * eexists. split; [reflexivity|]. split; [|discriminate].
        unfold WebScraper.on_exception. cbn [is_Timeout is_ConnectionError
          http_status HTTPError].
        destruct (status =? 403)%Z; [discriminate|].
        destruct (status =? 404)%Z; discriminate.
      * eexists. split; [reflexivity|]. split; [|discriminate].
        unfold WebScraper.extract.
        destruct (negb (contains (WebSearch.get_str content_type) (u "text/html")));
          [discriminate|].
        destruct (WebScraper.main_content _); [|discriminate].
        destruct (negb (truthy _)); discriminate.
  - cbn [negb]. rewrite app_nil_r. destruct st.
    eexists. split; [reflexivity|]. split; [discriminate | reflexivity].
Qed.

Lemma search_output_nonempty data n :
  (let final_output := join [LF] (WebSearch.formatted_results data n) in
   if truthy final_output then final_output else WebSearch.NO_RESULTS) <> [].
Proof.
  cbv zeta. destruct (join [LF] (WebSearch.formatted_results data n));
    discriminate.
Qed.

End RouterFacts.


(** X3.  The router dispatches exactly the names of [get_schemas].  A name
    that is not offered gets the unknown-tool message, which quotes the
    name, and leaves the state as it was: no counter moves and no network
    call is made.  A name that is offered moves exactly one of the two
    counters by one. *)
Theorem execute_dispatches_the_schemas (w : world) (tool_name : str)
    (tool_input : ToolInput) (st : State) :
  (Schemas.offered tool_name = false ->
   Registry.execute w tool_name tool_input st
   = (Ok (Registry.unknown_tool_message tool_name), st)
   /\ contains (Registry.unknown_tool_message tool_name) tool_name = true)
  /\ (Schemas.offered tool_name = true ->
      let st' := snd (Registry.execute w tool_name tool_input st) in
      _search_count (registry st') + _scrape_count (registry st')
      = _search_count (registry st) + _scrape_count (registry st) + 1).
Proof.
  unfold Schemas.offered, Registry.execute. cbn [existsb Schemas.get_schemas
    Schemas.schema_name].
  destruct (PyStr.eqb tool_name (u "web_search")).
  - split; [discriminate|]. intros _.
    cbv beta iota zeta delta [bind with_registry WebSearch.search_and_format
                              WebSearch.web_search network].
    cbn [trace memory registry].
    destruct (requests_post w (trace st) _ _) as [e|status data];
      [cbn; lia|].
    destruct (is_error_status status); cbn; lia.
  - destruct (PyStr.eqb tool_name (u "web_scraper")).
    + split; [discriminate|]. intros _.
      cbv beta iota zeta delta [bind with_registry]. cbn [trace memory registry].
      match goal with
      | |- context [WebScraper.scrape w ?u ?s] =>
          destruct (scrape_state w u s) as (out & -> & _)
      end.
      cbn. lia.
    + split; [|discriminate]. intros _. split; [reflexivity|].
      apply (contains_app (u "Error: Unknown tool '") tool_name (u "'")).
Qed.



(** X6.  Whatever the tool and its arguments, a result that the router
    returns is never the empty string. *)
Theorem execute_output_nonempty (w : world) (tool_name : str)
    (tool_input : ToolInput) (st : State) (out : str) (st' : State) :
  Registry.execute w tool_name tool_input st = (Ok out, st') -> out <> [].
Proof.
  unfold Registry.execute.
  destruct (PyStr.eqb tool_name (u "web_search")).
  - cbv beta iota zeta delta [bind with_registry WebSearch.search_and_format
                              WebSearch.web_search network ret].
    cbn [trace memory registry].
    destruct (requests_post w (trace st) _ _) as [e|status data];
      [discriminate|].
    destruct (is_error_status status); [discriminate|].
    intros H. injection H as <- _. apply search_output_nonempty.
  - destruct (PyStr.eqb tool_name (u "web_scraper")).
    + cbv beta iota zeta delta [bind with_registry]. cbn [trace memory registry].
      match goal with
      | |- context [WebScraper.scrape w ?u ?s] =>
          destruct (scrape_state w u s) as (out' & -> & Hne & _)
      end.
      intros H. injection H as <- _. exact Hne.
    + intros H. injection H as <- _. discriminate.
Qed.

Lemma execute_output_nonempty_witness :
  Registry.execute ScraperSpec.sample_world (u "calculator")
    {| input_query := None; input_num_results := None; input_url := None |}
    ScraperSpec.initial_state
  = (Ok (Registry.unknown_tool_message (u "calculator")), ScraperSpec.initial_state)
  /\ Registry.unknown_tool_message (u "calculator") <> [].
Proof.
  split; [reflexivity|].
  apply (execute_output_nonempty ScraperSpec.sample_world (u "calculator")
           {| input_query := None; input_num_results := None; input_url := None |}
           ScraperSpec.initial_state _ ScraperSpec.initial_state).
  reflexivity.
Defined.

(** ** The search output at its edges *)

Section SearchEdgeFacts.

Import WebSearch SearchSpec.

Variable w : world.

(** The lines for any bound, negative or not. *)
Lemma formatted_results_sliced data n :
  formatted_results data n
  = answer_lines data
    ++ map entry (filter (fun p => kept (snd p))
                    (numbered 0 (slice_to (results_of data) n))).
Proof.
  unfold formatted_results, answer_lines, results_of. f_equal.
  - destruct (answerBox data) as [[[|c a]|]|]; reflexivity.
  - destruct (organic data) as [results|].
    + apply format_organic_numbered.
    + unfold slice_to. destruct (n <? 0)%Z; now rewrite firstn_nil.
Qed.

Lemma search_and_format_result st query n status data :
  requests_post w (trace st) query n = PostResponse status data ->
  is_error_status status = false ->
  fst (search_and_format w query n st)
  = Ok (match formatted_results data n with
        | [] => NO_RESULTS
        | _ :: _ => join [LF] (formatted_results data n)
        end).
Proof.
  intros Hpost Hstatus. unfold search_and_format, web_search.
  cbv beta iota delta [bind with_registry network]. cbn [trace memory registry].
  rewrite Hpost, Hstatus. cbv beta iota zeta delta [ret]. cbn [fst]. f_equal.
  rewrite formatted_results_sliced.
  destruct (answer_lines data ++ _) as [|p rest] eqn:E; [reflexivity|].
  assert (Hp : truthy p = true).
  { assert (Hin : In p (p :: rest)) by now left. rewrite <- E in Hin.
    apply in_app_or in Hin. destruct Hin as [Hin|Hin].
    - unfold answer_lines in Hin.
      destruct (answerBox data) as [[[|c a]|]|]; simpl in Hin;
        try contradiction. destruct Hin as [<-|[]]. reflexivity.
    - apply in_map_iff in Hin. destruct Hin as (x & <- & _).
      apply entry_truthy. }
  now rewrite (join_truthy [LF] p rest Hp).
Qed.

(** A line of the output starts with the D of [DIRECT ANSWER] or the R of
    [Result]. *)
Lemma line_head data l line :
  In line (answer_lines data ++ map entry l) ->
  exists tail, line = 68%N :: tail \/ line = 82%N :: tail.
Proof.
  intros Hin. apply in_app_or in Hin. destruct Hin as [Hin|Hin].
  - unfold answer_lines in Hin.
    destruct (answerBox data) as [[[|c a]|]|]; simpl in Hin; try contradiction.
    destruct Hin as [<-|[]]. eexists. left. reflexivity.
  - apply in_map_iff in Hin. destruct Hin as ([i r] & <- & _).
    eexists. right. reflexivity.
Qed.

Lemma filter_nil_iff {A} (f : A -> bool) l :
  filter f l = [] <-> forall x, In x l -> f x = false.
Proof.
  induction l as [|a l IH]; simpl; [tauto|].
  destruct (f a) eqn:E; split.
  - discriminate.
  - intros H. specialize (H a (or_introl eq_refl)). congruence.
  - intros H x [<-|Hx]; [exact E | now apply IH].
  - intros H. apply IH. auto.
Qed.

Lemma In_numbered i l (r : OrganicResult) :
  In r l <-> exists k, In (k, r) (numbered i l).
Proof.
  unfold numbered. revert i. induction l as [|a l IH]; intros i; simpl.
  - split; [tauto | intros (k & [])].
  - split.
    + intros [<-|H]; [exists i; now left|].
      apply (IH (S i)) in H. destruct H as (k & H). exists k. now right.
    + intros (k & [E|H]); [injection E as _ <-; now left|].
      right. apply (IH (S i)). now exists k.
Qed.

End SearchEdgeFacts.

(** X7.  When the search backend answers, the output is "No results
    found." exactly when there is nothing to show: the backend gave no
    non-empty direct answer, and none of the results within the bound has
    both a title and a URL.  No real result is ever rendered as that
    string. *)
Theorem no_results_iff_nothing_to_show (w : world) (st : State) (query : str)
    (num_results : Z) (status : Z) (data : SearchData) :
  requests_post w (trace st) query num_results = PostResponse status data ->
  is_error_status status = false ->
  (fst (WebSearch.search_and_format w query num_results st)
   = Ok WebSearch.NO_RESULTS
   <-> SearchSpec.answer_lines data = []
       /\ forall r,
            In r (WebSearch.slice_to (SearchSpec.results_of data) num_results) ->
            SearchSpec.kept r = false).
Proof.
  intros Hpost Hstatus.
  rewrite (search_and_format_result w st query num_results status data Hpost Hstatus).
  rewrite formatted_results_sliced.
  set (l := filter (fun p => SearchSpec.kept (snd p))
              (SearchSpec.numbered 0
                 (WebSearch.slice_to (SearchSpec.results_of data) num_results))).
  assert (Hl : l = [] <->
               forall r,
                 In r (WebSearch.slice_to (SearchSpec.results_of data) num_results) ->
                 SearchSpec.kept r = false).
  { unfold l. rewrite filter_nil_iff. split.
    - intros H r Hr. apply (In_numbered 0) in Hr. destruct Hr as (k & Hk).
      apply (H (k, r) Hk).
    - intros H [k r] Hk. apply H. apply (In_numbered 0). now exists k. }
  destruct (SearchSpec.answer_lines data ++ map SearchSpec.entry l)
    as [|line rest] eqn:E.
  - apply app_eq_nil in E. destruct E as [Ea El].
    apply map_eq_nil in El. split; [|reflexivity].
    intros _. split; [exact Ea | now apply Hl].
  - split.
    + intros H. exfalso. injection H as H.
      destruct (line_head data l line) as (tail & Hline);
        [rewrite E; now left|].
      destruct Hline as [-> | ->].
      * destruct rest; vm_compute in H; discriminate.
      * destruct rest; vm_compute in H; discriminate.
    + intros [Ea Hno]. apply Hl in Hno. rewrite Ea, Hno in E. discriminate.
Qed.

Lemma no_results_iff_nothing_to_show_witness :
  fst (WebSearch.search_and_format
         (SearchSpec.search_world SearchSpec.title_only_data)
         (u "fusion") 5 ScraperSpec.initial_state)
  = Ok WebSearch.NO_RESULTS
  <-> SearchSpec.answer_lines SearchSpec.title_only_data = []
      /\ forall r,
           In r (WebSearch.slice_to
                   (SearchSpec.results_of SearchSpec.title_only_data) 5) ->
           SearchSpec.kept r = false.
Proof.
  apply (no_results_iff_nothing_to_show
           (SearchSpec.search_world SearchSpec.title_only_data)
           ScraperSpec.initial_state (u "fusion") 5 200
           SearchSpec.title_only_data); reflexivity.
Defined.

(** X8.  A negative [num_results] is not refused and does not mean none:
    it goes into the slice as it is, so that many results are dropped from
    the end of the backend's list and all the others are considered. *)
Theorem negative_num_results_drops_from_the_end (w : world) (st : State)
    (query : str) (num_results : Z) (status : Z) (data : SearchData) :
  requests_post w (trace st) query num_results = PostResponse status data ->
  is_error_status status = false ->
  (num_results < 0)%Z ->
  fst (WebSearch.search_and_format w query num_results st)
  = Ok (let lines :=
          SearchSpec.answer_lines data
          ++ SearchSpec.entries data
               (List.length (SearchSpec.results_of data) - Z.to_nat (- num_results)) in
        match lines with
        | [] => WebSearch.NO_RESULTS
        | _ :: _ => join [LF] lines
        end).
Proof.
  intros Hpost Hstatus Hn.
  rewrite (search_and_format_result w st query num_results status data Hpost Hstatus).
  rewrite formatted_results_sliced. cbv zeta. unfold SearchSpec.entries.
  replace (WebSearch.slice_to (SearchSpec.results_of data) num_results)
    with (firstn (List.length (SearchSpec.results_of data)
                  - Z.to_nat (- num_results)) (SearchSpec.results_of data));
    [reflexivity|].
  unfold WebSearch.slice_to.
  destruct (Z.ltb_spec num_results 0) as [_|H]; [|lia].
  f_equal. lia.
Qed.

Lemma negative_num_results_drops_from_the_end_witness :
  fst (WebSearch.search_and_format (SearchSpec.search_world SearchSpec.full_data)
         (u "capital of France") (-2) ScraperSpec.initial_state)
  = Ok (let lines :=
          SearchSpec.answer_lines SearchSpec.full_data
          ++ SearchSpec.entries SearchSpec.full_data
               (List.length (SearchSpec.results_of SearchSpec.full_data)
                - Z.to_nat (- (-2))) in
        match lines with
        | [] => WebSearch.NO_RESULTS
        | _ :: _ => join [LF] lines
        end).
Proof.
  apply (negative_num_results_drops_from_the_end
           (SearchSpec.search_world SearchSpec.full_data)
           ScraperSpec.initial_state (u "capital of France") (-2) 200
           SearchSpec.full_data); [reflexivity | reflexivity | lia].
Defined.

(** ** Removing tags from the document *)

Section TreeFacts.

Import WebScraper MoreSpec.

(** Induction on documents, with the hypothesis on all the children. *)
Lemma node_ind_nested (P : node -> Prop) :
  (forall s, P (NavigableString s)) ->
  (forall name attrs contents, Forall P contents -> P (Tag name attrs contents)) ->
  forall n, P n.
Proof.
  intros Hs Ht. fix IH 1. intros [s|name attrs contents].
  - apply Hs.
  - apply Ht. induction contents as [|c contents IHc].
    + constructor.
    + constructor; [apply IH | exact IHc].
Qed.

Lemma decompose_all_tag test name attrs contents :
  decompose_all test (Tag name attrs contents)
  = if test name attrs then []
    else [Tag name attrs (flat_map (decompose_all test) contents)].
Proof. reflexivity. Qed.

Lemma any_tag_tag test name attrs contents :
  any_tag test (Tag name attrs contents)
  = test name attrs || existsb (any_tag test) contents.
Proof. reflexivity. Qed.

Lemma decompose_twice_node p q n :
  flat_map (decompose_all p) (decompose_all q n) = decompose_all (either p q) n.
Proof.
  induction n as [s|name attrs contents IH] using node_ind_nested;
    [reflexivity|].
  rewrite !decompose_all_tag. unfold either at 1.
  destruct (q name attrs); [now rewrite orb_true_r|].
  rewrite orb_false_r. cbn [flat_map]. rewrite app_nil_r, decompose_all_tag.
  destruct (p name attrs); [reflexivity|].
  do 2 f_equal.
  induction IH as [|c contents Hc _ IHl]; [reflexivity|].
  cbn [flat_map]. now rewrite flat_map_app, Hc, IHl.
Qed.

Lemma decompose_twice p q soup :
  decompose_all_soup p (decompose_all_soup q soup)
  = decompose_all_soup (either p q) soup.
Proof.
  unfold decompose_all_soup.
  induction soup as [|n soup IH]; [reflexivity|].
  cbn [flat_map]. now rewrite flat_map_app, decompose_twice_node, IH.
Qed.

Lemma decompose_all_ext p q :
  (forall name attrs, p name attrs = q name attrs) ->
  forall n, decompose_all p n = decompose_all q n.
Proof.
  intros H n.
  induction n as [s|name attrs contents IH] using node_ind_nested;
    [reflexivity|].
  rewrite !decompose_all_tag, H. destruct (q name attrs); [reflexivity|].
  do 2 f_equal.
  induction IH as [|c contents Hc _ IHl]; [reflexivity|].
  cbn [flat_map]. now rewrite Hc, IHl.
Qed.

(** What passes the test is gone, at every depth. *)
Lemma decompose_all_clean test n :
  forallb (fun m => negb (any_tag test m)) (decompose_all test n) = true.
Proof.
  induction n as [s|name attrs contents IH] using node_ind_nested;
    [reflexivity|].
  rewrite decompose_all_tag. destruct (test name attrs) eqn:E; [reflexivity|].
  cbn [forallb]. rewrite any_tag_tag, E, andb_true_r. cbn [orb].
  apply negb_true_iff.
  induction IH as [|c contents Hc _ IHl]; [reflexivity|].
  cbn [flat_map]. rewrite existsb_app, IHl, orb_false_r.
  destruct (existsb (any_tag test) (decompose_all test c)) eqn:Ex;
    [|reflexivity].
  apply existsb_exists in Ex. destruct Ex as (m & Hin & Hm).
  rewrite forallb_forall in Hc. specialize (Hc m Hin).
  now rewrite Hm in Hc.
Qed.

Lemma any_tag_either_l p q n : any_tag (either p q) n = false -> any_tag p n = false.
Proof.
  induction n as [s|name attrs contents IH] using node_ind_nested;
    [reflexivity|].
  rewrite !any_tag_tag. unfold either at 1. intros H.
  apply orb_false_iff in H. destruct H as [H1 H2].
  apply orb_false_iff in H1. destruct H1 as [-> _]. cbn [orb].
  induction IH as [|c contents Hc _ IHl]; [reflexivity|].
  cbn [existsb] in *. apply orb_false_iff in H2. destruct H2 as [Ha Hb].
  now rewrite (Hc Ha), (IHl Hb).
Qed.

Lemma decompose_all_soup_clean test soup :
  any_tag_soup test (decompose_all_soup test soup) = false.
Proof.
  unfold any_tag_soup, decompose_all_soup.
  induction soup as [|n soup IH]; [reflexivity|].
  cbn [flat_map]. rewrite existsb_app, IH, orb_false_r.
  destruct (existsb (any_tag test) (decompose_all test n)) eqn:Ex;
    [|reflexivity].
  apply existsb_exists in Ex. destruct Ex as (m & Hin & Hm).
  pose proof (decompose_all_clean test n) as Hc.
  rewrite forallb_forall in Hc. specialize (Hc m Hin). now rewrite Hm in Hc.
Qed.

Lemma any_tag_soup_either p q soup :
  any_tag_soup (either p q) soup = false ->
  any_tag_soup p soup = false /\ any_tag_soup q soup = false.
Proof.
  unfold any_tag_soup. induction soup as [|n soup IH]; [now split|].
  cbn [existsb]. intros H. apply orb_false_iff in H. destruct H as [Hn Hs].
  destruct (IH Hs) as [-> ->]. rewrite (any_tag_either_l p q n Hn).
  assert (Hq : any_tag q n = false).
  { apply (any_tag_either_l q p).
    rewrite <- Hn. clear.
    induction n as [s|name attrs contents IH] using node_ind_nested;
      [reflexivity|].
    rewrite !any_tag_tag. unfold either at 1 3.
    rewrite (orb_comm (q name attrs)). f_equal.
    induction IH as [|c contents Hc _ IHl]; [reflexivity|].
    cbn [existsb]. now rewrite Hc, IHl. }
  now rewrite Hq.
Qed.

End TreeFacts.

(** X9.  The two removal loops of [scrape] do not depend on their order:
    removing the hidden tags first and the noise tags second leaves the
    same document, which is also what one pass removing both kinds leaves;
    and removing again changes nothing. *)
Theorem remove_noise_order_independent (soup : list node) :
  WebScraper.remove_noise soup
  = WebScraper.decompose_all_soup WebScraper.is_noise
      (WebScraper.decompose_all_soup WebScraper.is_hidden soup)
  /\ WebScraper.remove_noise soup
     = WebScraper.decompose_all_soup
         (MoreSpec.either WebScraper.is_noise WebScraper.is_hidden) soup
  /\ WebScraper.remove_noise (WebScraper.remove_noise soup)
     = WebScraper.remove_noise soup.
Proof.
  assert (Hext : forall p q l,
            (forall name attrs, p name attrs = q name attrs) ->
            WebScraper.decompose_all_soup p l = WebScraper.decompose_all_soup q l).
  { intros p q l H. unfold WebScraper.decompose_all_soup.
    apply flat_map_ext. intros n. now apply decompose_all_ext. }
  unfold WebScraper.remove_noise. rewrite !decompose_twice.
  split; [|split].
  - apply Hext. intros name attrs. unfold MoreSpec.either. apply orb_comm.
  - apply Hext. intros name attrs. unfold MoreSpec.either. apply orb_comm.
  - apply Hext. intros name attrs. unfold MoreSpec.either.
    destruct (WebScraper.is_hidden name attrs), (WebScraper.is_noise name attrs);
      reflexivity.
Qed.

(** X10.  After the removal no tag of a noise category and no tag with a
    hidden style (as the case-sensitive pattern reads it) is left anywhere
    in the document, however deep. *)
Theorem remove_noise_leaves_no_noise (soup : list node) :
  MoreSpec.any_tag_soup WebScraper.is_noise (WebScraper.remove_noise soup) = false
  /\ MoreSpec.any_tag_soup WebScraper.is_hidden (WebScraper.remove_noise soup)
     = false.
Proof.
  unfold WebScraper.remove_noise. rewrite decompose_twice.
  destruct (any_tag_soup_either WebScraper.is_hidden WebScraper.is_noise
              (WebScraper.decompose_all_soup
                 (MoreSpec.either WebScraper.is_hidden WebScraper.is_noise) soup)
              (decompose_all_soup_clean _ soup)) as [Hh Hn].
  now split.
Qed.

(** ** More on [_clean_text] *)

Section CleanTextMore.

Lemma islinebreak_isspace c : islinebreak c = true -> isspace c = true.
Proof.
  unfold islinebreak, isspace, mem. cbn [existsb].
  repeat match goal with
         | |- context [(?a <=? ?b)%N] => destruct (N.leb_spec a b)
         | |- context [(?a =? ?b)%N] => destruct (N.eqb_spec a b)
         end; cbn; intros Hlb; try reflexivity; try discriminate; lia.
Qed.

Lemma splitlines_from_Forall (Q : codepoint -> Prop) n : forall s cur,
  List.length s <= n -> Forall Q cur -> Forall Q s ->
  Forall (Forall Q) (splitlines_from cur s).
Proof.
  induction n as [|n IH]; intros s cur Hn Hcur Hs.
  - destruct s; [|simpl in Hn; lia]. simpl.
    destruct cur; constructor; [now apply Forall_rev | constructor].
  - destruct s as [|c rest]; simpl.
    + destruct cur; constructor; [now apply Forall_rev | constructor].
    + inversion Hs as [|? ? Hc Hrest]; subst. simpl in Hn.
      destruct (islinebreak c).
      * constructor; [now apply Forall_rev|].
        destruct rest as [|d rest']; [constructor|].
        inversion Hrest; subst.
        destruct ((c =? CR)%N && (d =? LF)%N);
          apply IH; simpl in *; auto; lia.
      * apply IH; [lia | now constructor | exact Hrest].
Qed.

Lemma splitlines_from_covers (P : codepoint -> Prop) n :
  (forall c, islinebreak c = true -> P c) ->
  forall s cur,
    List.length s <= n ->
    Forall (Forall P) (splitlines_from cur s) -> Forall P cur /\ Forall P s.
Proof.
  intros Hlb. induction n as [|n IH]; intros s cur Hn H.
  - destruct s; [|simpl in Hn; lia]. simpl in H. split; [|constructor].
    destruct cur; [constructor|]. inversion H; subst.
    rewrite <- (rev_involutive (c :: cur)). now apply Forall_rev.
  - destruct s as [|c rest]; simpl in H.
    + split; [|constructor].
      destruct cur; [constructor|]. inversion H; subst.
      rewrite <- (rev_involutive (c :: cur)). now apply Forall_rev.
    + simpl in Hn. destruct (islinebreak c) eqn:Ec.
      * inversion H as [|? ? Hcur Hrest]; subst.
        split; [rewrite <- (rev_involutive cur); now apply Forall_rev|].
        constructor; [now apply Hlb|].
        destruct rest as [|d rest']; [constructor|].
        destruct ((c =? CR)%N && (d =? LF)%N) eqn:Ed.
        -- apply andb_true_iff in Ed. destruct Ed as [_ Ed].
           apply N.eqb_eq in Ed. subst d.
           constructor; [now apply Hlb|].
           apply (IH rest' []); [simpl in Hn; lia | exact Hrest].
        -- apply (IH (d :: rest') []); [lia | exact Hrest].
      * destruct (IH rest (c :: cur)) as [Hc Hr]; [lia | exact H|].
        inversion Hc; subst. split; [assumption | now constructor].
Qed.

Lemma dropwhile_nil_iff s :
  dropwhile isspace s = [] <-> Forall (fun c => isspace c = true) s.
Proof.
  induction s as [|c s IH]; simpl; [split; constructor|].
  destruct (isspace c) eqn:E.
  - rewrite IH. split; [now constructor | now inversion 1].
  - split; [discriminate | inversion 1; congruence].
Qed.

Lemma dropwhile_spaces s :
  Forall (fun c => isspace c = true) (dropwhile isspace s) ->
  Forall (fun c => isspace c = true) s.
Proof.
  induction s as [|c s IH]; simpl; [constructor|].
  destruct (isspace c) eqn:E; [|trivial]. intros H. constructor; auto.
Qed.

Lemma strip_nil_iff l : strip l = [] <-> Forall (fun c => isspace c = true) l.
Proof.
  unfold strip, rstrip, lstrip. split.
  - intros H. apply (f_equal (@rev _)) in H. rewrite rev_involutive in H.
    simpl in H. apply dropwhile_nil_iff in H.
    apply Forall_rev in H. rewrite rev_involutive in H.
    now apply dropwhile_spaces.
  - intros H. apply dropwhile_nil_iff in H. now rewrite H.
Qed.

Lemma sub_spaces_length text : List.length (sub_spaces text) <= List.length text.
Proof.
  induction text as [|c rest IH]; [reflexivity|].
  rewrite sub_spaces_cons. destruct rest as [|d rest']; [reflexivity|].
  destruct ((c =? SPACE)%N && (d =? SPACE)%N); simpl in *; lia.
Qed.

Lemma dropwhile_length p s : List.length (dropwhile p s) <= List.length s.
Proof.
  induction s as [|c s IH]; simpl; [lia|]. destruct (p c); simpl; lia.
Qed.

Lemma strip_length l : List.length (strip l) <= List.length l.
Proof.
  unfold strip, rstrip, lstrip. rewrite length_rev.
  etransitivity; [apply dropwhile_length|]. rewrite length_rev.
  apply dropwhile_length.
Qed.

(** The length of a join, through the sum of the lengths of the lines, each
    counted with one separator. *)
Lemma join_length ms :
  List.length (join [LF] ms)
  = list_sum (map (fun m => S (List.length m)) ms) - 1.
Proof.
  induction ms as [|m ms IH]; [reflexivity|].
  destruct ms as [|q ms]; [simpl; lia|].
  rewrite join_cons2, !length_app, IH. simpl. lia.
Qed.

Lemma splitlines_from_weight n : forall s cur,
  List.length s <= n ->
  list_sum (map (fun m => S (List.length m)) (splitlines_from cur s))
  <= S (List.length cur + List.length s).
Proof.
  induction n as [|n IH]; intros s cur Hn.
  - destruct s; [|simpl in Hn; lia]. simpl.
    destruct cur; simpl; [lia|]. rewrite length_app, length_rev. simpl. lia.
  - destruct s as [|c rest]; simpl.
    + destruct cur; simpl; [lia|]. rewrite length_app, length_rev. simpl. lia.
    + simpl in Hn. destruct (islinebreak c).
      * cbn [map list_sum]. rewrite length_rev.
        destruct rest as [|d rest']; [simpl; lia|].
        destruct ((c =? CR)%N && (d =? LF)%N).
        -- pose proof (IH rest' [] ltac:(simpl in Hn; lia)). simpl in *. lia.
        -- pose proof (IH (d :: rest') [] ltac:(lia)). simpl in *. lia.
      * pose proof (IH rest (c :: cur) ltac:(lia)). simpl in *. lia.
Qed.

Lemma weight_filter_map (f : str -> str) (p : str -> bool) ms :
  (forall m, List.length (f m) <= List.length m) ->
  list_sum (map (fun m => S (List.length m)) (filter p (map f ms)))
  <= list_sum (map (fun m => S (List.length m)) ms).
Proof.
  intros Hf. induction ms as [|m ms IH]; [reflexivity|].
  simpl. specialize (Hf m). destruct (p (f m)); simpl; lia.
Qed.

End CleanTextMore.

Section CleanTextShape.

Lemma join_In c ms :
  In c (join [LF] ms) -> c = LF \/ exists m, In m ms /\ In c m.
Proof.
  induction ms as [|m ms IH]; [intros []|].
  destruct ms as [|q ms].
  - simpl. intros H. right. exists m. auto.
  - rewrite join_cons2. intros H. apply in_app_or in H.
    destruct H as [H|H]; [right; exists m; simpl; auto|].
    apply in_app_or in H. destruct H as [[<-|[]]|H]; [now left|].
    destruct (IH H) as [->|(m' & Hm & Hc)]; [now left|].
    right. exists m'. simpl in *. tauto.
Qed.

Lemma clean_text_line_In text m :
  In m (map sub_spaces (nonblank_lines text)) ->
  nolb m /\ forall c, In c m -> In c text.
Proof.
  intros Hm. split.
  - pose proof (map_sub_spaces_good _ (nonblank_lines_good text)) as Hg.
    rewrite Forall_forall in Hg. apply (Hg m Hm).
  - intros c Hc. apply in_map_iff in Hm. destruct Hm as (l & <- & Hl).
    apply sub_spaces_In in Hc.
    unfold nonblank_lines, stripped_lines in Hl.
    apply filter_In in Hl. destruct Hl as [Hl _].
    apply in_map_iff in Hl. destruct Hl as (x & <- & Hx).
    apply strip_In in Hc.
    assert (H : Forall (Forall (fun c => In c text)) (splitlines text)).
    { apply (splitlines_from_Forall _ (List.length text)); [lia | constructor|].
      now apply Forall_forall. }
    rewrite Forall_forall in H. specialize (H x Hx).
    rewrite Forall_forall in H. now apply H.
Qed.

End CleanTextShape.

(** X11.  The cleaned text is empty exactly when the input consists of
    white space only (the empty input included); this is when [scrape]
    reports that the page has no readable text. *)
Theorem clean_text_empty_iff_blank (text : str) :
  _clean_text text = [] <-> Forall (fun c => isspace c = true) text.
Proof.
  rewrite clean_text_shape. split.
  - intros H.
    pose proof (map_sub_spaces_good _ (nonblank_lines_good text)) as Hg.
    destruct (join_good _ Hg) as [_ Hne].
    destruct (map sub_spaces (nonblank_lines text)) eqn:E;
      [|exfalso; apply Hne; [discriminate | exact H]].
    apply map_eq_nil in E. unfold nonblank_lines, stripped_lines in E.
    apply (splitlines_from_covers (fun c => isspace c = true)
             (List.length text) islinebreak_isspace text []); [lia|].
    apply Forall_forall. intros l Hl. apply strip_nil_iff.
    destruct (strip l) eqn:Es; [reflexivity|].
    assert (Hin : In (strip l) (filter truthy (map strip (splitlines text)))).
    { apply filter_In. split; [now apply in_map | now rewrite Es]. }
    rewrite E in Hin. destruct Hin.
  - intros H.
    assert (E : nonblank_lines text = []).
    { unfold nonblank_lines, stripped_lines.
      assert (Hl : Forall (Forall (fun c => isspace c = true)) (splitlines text))
        by (apply (splitlines_from_Forall _ (List.length text));
            [lia | constructor | exact H]).
      induction Hl as [|l ls Hx _ IH]; [reflexivity|].
      simpl. apply strip_nil_iff in Hx. now rewrite Hx. }
    now rewrite E.
Qed.

(** X12.  Cleaning never makes a text longer. *)
Theorem clean_text_never_longer (text : str) :
  List.length (_clean_text text) <= List.length text.
Proof.
  rewrite clean_text_shape, join_length.
  assert (H1 : list_sum (map (fun m => S (List.length m))
                           (map sub_spaces (nonblank_lines text)))
               <= list_sum (map (fun m => S (List.length m)) (nonblank_lines text))).
  { induction (nonblank_lines text) as [|m ms IH]; [reflexivity|].
    simpl. pose proof (sub_spaces_length m). lia. }
  pose proof (weight_filter_map strip truthy (splitlines text) strip_length) as H2.
  pose proof (splitlines_from_weight (List.length text) text [] (le_n _)) as H3.
  unfold nonblank_lines, stripped_lines, splitlines in *.
  change (List.length (@nil codepoint)) with 0 in H3. lia.
Qed.

(** X13.  The cleaned text is made of characters of the input and of
    newlines, and the newline is the only line boundary left in it:
    carriage returns, form feeds and the other Unicode line separators of
    the input are gone. *)
Theorem clean_text_characters (text : str) (c : codepoint) :
  In c (_clean_text text) ->
  (c = LF \/ In c text) /\ (islinebreak c = true -> c = LF).
Proof.
  rewrite clean_text_shape. intros H.
  destruct (join_In _ _ H) as [->|(m & Hm & Hc)]; [split; auto|].
  destruct (clean_text_line_In text m Hm) as [Hlb Hin].
  split; [right; now apply Hin|].
  intros Hb. unfold nolb in Hlb. rewrite Forall_forall in Hlb.
  rewrite (Hlb c Hc) in Hb. discriminate.
Qed.

Lemma clean_text_characters_witness :
  In 97%N (_clean_text (u "  a" ++ [CR] ++ u "b  "))
  /\ (97%N = LF \/ In 97%N (u "  a" ++ [CR] ++ u "b  "))
  /\ (islinebreak 97%N = true -> 97%N = LF).
Proof.
  assert (H : In 97%N (_clean_text (u "  a" ++ [CR] ++ u "b  ")))
    by (vm_compute; auto).
  split; [exact H|].
  apply (clean_text_characters (u "  a" ++ [CR] ++ u "b  ") 97%N H).
Defined.

(** ** The loop in any world *)

Section AnyWorld.

Import LoopSpec MoreSpec.

Variable w : world.

Lemma run_unfold question st :
  AgentLoop.run w question st
  = AgentLoop.steps w (chosen_prompt st) (seq 1 AgentLoop.MAX_ITERATIONS)
      (asked question st).
Proof. reflexivity. Qed.

Lemma fallback_nonempty : AgentLoop.FALLBACK_MESSAGE <> [].
Proof. intros H. vm_compute in H. discriminate. Qed.

(** What a tool adds to the trace is never a request to the model. *)
Lemma execute_trace tool_name tool_input st :
  exists evs,
    trace (snd (Registry.execute w tool_name tool_input st)) = trace st ++ evs
    /\ Forall (fun ev => is_model_call ev = false) evs.
Proof.
  unfold Registry.execute.
  destruct (PyStr.eqb tool_name (u "web_search")).
  - cbv beta iota zeta delta [bind with_registry WebSearch.search_and_format
                              WebSearch.web_search network].
    cbn [trace memory registry].
    match goal with
    | |- context [requests_post w (trace st) ?q ?n] =>
        exists [SearchPost q n]; split; [|repeat constructor];
        destruct (requests_post w (trace st) q n) as [e|status data];
          [reflexivity|]
    end.
    destruct (is_error_status status); reflexivity.
  - destruct (PyStr.eqb tool_name (u "web_scraper")).
    + cbv beta iota zeta delta [bind with_registry]. cbn [trace memory registry].
      match goal with
      | |- context [WebScraper.scrape w ?u ?s] =>
          destruct (scrape_state w u s) as (out & -> & _)
      end.
      cbn [snd fetched trace].
      match goal with
      | |- context [if ?b then _ else _] => destruct b
      end; eexists; split; try reflexivity; repeat constructor.
    + exists []. split; [now rewrite app_nil_r | constructor].
Qed.

Lemma execute_blocks_trace content : forall st,
  exists evs,
    trace (snd (AgentLoop.execute_blocks w content st)) = trace st ++ evs
    /\ Forall (fun ev => is_model_call ev = false) evs.
Proof.
  induction content as [|block rest IH]; intros st.
  - exists []. split; [now rewrite app_nil_r | constructor].
  - destruct block as [text|id name input|type]; simpl; try apply IH.
    unfold bind.
    destruct (execute_trace name input st) as (evs1 & E1 & H1).
    destruct (Registry.execute w name input st) as [[out|e] st1];
      cbn [snd] in E1; [|now exists evs1].
    destruct (IH st1) as (evs2 & E2 & H2).
    destruct (AgentLoop.execute_blocks w rest st1) as [[results|e] st2];
      cbv beta iota delta [ret]; cbn [snd] in *; exists (evs1 ++ evs2);
      (split; [rewrite E2, E1; now rewrite app_assoc | now apply Forall_app]).
Qed.

Lemma model_calls_none evs :
  Forall (fun ev => is_model_call ev = false) evs -> model_calls evs = 0.
Proof.
  unfold model_calls. induction 1 as [|ev evs H _ IH]; [reflexivity|].
  simpl. now rewrite H.
Qed.

Lemma no_model_prompt_is system evs :
  Forall (fun ev => is_model_call ev = false) evs -> Forall (prompt_is system) evs.
Proof.
  intros H. eapply Forall_impl; [|exact H].
  intros [s m|q n|url]; simpl; [discriminate | trivial | trivial].
Qed.

(** Everything the loop does to the trace and to the transcript. *)
Lemma steps_effects system range : forall st,
  exists evs suffix,
    trace (snd (AgentLoop.steps w system range st)) = trace st ++ evs
    /\ Forall (prompt_is system) evs
    /\ model_calls evs <= List.length range
    /\ _messages (memory (snd (AgentLoop.steps w system range st)))
       = _messages (memory st) ++ suffix.
Proof.
  induction range as [|step rest IH]; intros st.
  - exists [], []. cbn. rewrite !app_nil_r. repeat split; constructor.
  - cbn [AgentLoop.steps].
    cbv beta iota delta [AgentLoop.create bind get_state network ret
                         AgentLoop.act_and_observe with_memory
                         AgentLoop._execute_tools].
    cbn [memory trace registry].
    set (call := ModelCall system (get_messages (memory st))).
    assert (Hcall : Forall (prompt_is system) [call])
      by (repeat constructor).
    assert (Hone : model_calls [call] <= List.length (step :: rest))
      by (cbn; lia).
    destruct (messages_create w (trace st) system (get_messages (memory st)))
      as [msg|response].
    { exists [call], []. cbn [snd trace memory]. rewrite app_nil_r. auto. }
    cbv beta iota.
    destruct (PyStr.eqb (stop_reason response) (u "end_turn")).
    { exists [call], [{| role := assistant;
                         content := Blocks (response_content response) |}].
      cbn [snd trace memory]. auto. }
    destruct (PyStr.eqb (stop_reason response) (u "tool_use")).
    2:{ exists [call], []. cbn [snd trace memory]. rewrite app_nil_r. auto. }
    cbn [memory trace registry].
    match goal with
    | |- context [AgentLoop.execute_blocks w ?c ?s] =>
        destruct (execute_blocks_trace c s) as (evs1 & E1 & H1);
        pose proof (execute_blocks_memory w c s) as Hmem;
        destruct (AgentLoop.execute_blocks w c s) as [[results|e] st1]
    end; cbn [snd trace memory] in E1, Hmem.
    + destruct (IH {| memory := add_tool_results results (memory st1);
                      registry := registry st1; trace := trace st1 |})
        as (evs2 & suffix & E2 & H2 & Hc & Hm).
      cbn [trace memory] in E2, Hm.
      exists ((call :: evs1) ++ evs2),
        ({| role := assistant; content := Blocks (response_content response) |}
         :: {| role := user; content := ToolResults results |} :: suffix).
      split; [rewrite E2, E1, <- !app_assoc; reflexivity|].
      split.
      { apply Forall_app. split; [|exact H2].
        constructor; [reflexivity | now apply no_model_prompt_is]. }
      split.
      { rewrite model_calls_app.
        change (call :: evs1) with ([call] ++ evs1).
        rewrite model_calls_app, (model_calls_none evs1 H1). cbn in *. lia. }
      rewrite Hm, Hmem. cbn [add_tool_results add_assistant_message _messages].
      now rewrite <- !app_assoc.
    + exists (call :: evs1),
        [{| role := assistant; content := Blocks (response_content response) |}].
      cbn [snd]. split; [rewrite E1, <- app_assoc; reflexivity|].
      split; [constructor; [reflexivity | now apply no_model_prompt_is]|].
      split.
      { change (call :: evs1) with ([call] ++ evs1).
        rewrite model_calls_app, (model_calls_none evs1 H1). cbn. lia. }
      now rewrite Hmem.
Qed.

Lemma steps_nonempty system range : forall st out st',
  AgentLoop.steps w system range st = (Ok out, st') -> out <> [].
Proof.
  induction range as [|step rest IH]; intros st out st'.
  - cbn. intros H. injection H as <- _. apply fallback_nonempty.
  - cbn [AgentLoop.steps].
    cbv beta iota delta [AgentLoop.create bind get_state network ret
                         AgentLoop.act_and_observe with_memory
                         AgentLoop._execute_tools].
    cbn [memory trace registry].
    destruct (messages_create w (trace st) system (get_messages (memory st)))
      as [msg|response]; [discriminate|].
    cbv beta iota.
    destruct (PyStr.eqb (stop_reason response) (u "end_turn")).
    { intros H. injection H as <- _.
      destruct (AgentLoop._extract_text response) eqn:E;
        [apply fallback_nonempty | discriminate]. }
    destruct (PyStr.eqb (stop_reason response) (u "tool_use")).
    2:{ intros H. injection H as <- _. apply fallback_nonempty. }
    cbn [memory trace registry].
    destruct (AgentLoop.execute_blocks w _ _) as [[results|e] st1];
      [apply IH | discriminate].
Qed.

End AnyWorld.

(** X14.  When the model answers the first request with [end_turn], [run]
    makes that one model call and no other network call, saves the
    question and the response, leaves the registry alone, and returns the
    stripped text of the response, or the fallback message when the
    response has no text. *)
Theorem run_answered_at_once (w : world) (question : str) (st : State)
    (response : Response) :
  messages_create w (trace st) (MoreSpec.chosen_prompt st)
    (get_messages (memory (MoreSpec.asked question st)))
  = ModelResponds response ->
  stop_reason response = u "end_turn" ->
  AgentLoop.run w question st
  = (Ok (if truthy (AgentLoop._extract_text response)
         then AgentLoop._extract_text response
         else AgentLoop.FALLBACK_MESSAGE),
     {| memory := add_assistant_message (response_content response)
                    (add_user_message question (memory st));
        registry := registry st;
        trace := trace st ++ [MoreSpec.first_call question st] |}).
Proof.
  intros Hmodel Hstop. rewrite run_unfold.
  cbn [AgentLoop.MAX_ITERATIONS seq AgentLoop.steps].
  cbv beta iota delta [AgentLoop.create bind get_state network ret with_memory].
  cbn [memory trace registry MoreSpec.asked].
  cbn [MoreSpec.asked memory] in Hmodel. rewrite Hmodel. cbv beta iota.
  rewrite Hstop. change (PyStr.eqb (u "end_turn") (u "end_turn")) with true.
  reflexivity.
Qed.

Lemma run_answered_at_once_witness :
  AgentLoop.run MoreSpec.answer_world (u "What is the capital of France?")
    ScraperSpec.initial_state
  = (Ok (u "Paris is the capital of France."),
     {| memory := add_assistant_message
                    [TextBlock (u " Paris is the capital of France. ")]
                    (add_user_message (u "What is the capital of France?")
                       (memory ScraperSpec.initial_state));
        registry := registry ScraperSpec.initial_state;
        trace := trace ScraperSpec.initial_state
                 ++ [MoreSpec.first_call (u "What is the capital of France?")
                       ScraperSpec.initial_state] |}).
Proof.
  apply (run_answered_at_once MoreSpec.answer_world
           (u "What is the capital of France?") ScraperSpec.initial_state
           {| stop_reason := u "end_turn";
              response_content :=
                [TextBlock (u " Paris is the capital of France. ")] |});
    reflexivity.
Defined.

(** X15.  When the model stops the first request for any reason other
    than [end_turn] and [tool_use] (a cut at [max_tokens], say), [run]
    returns the fallback message after that one call, and the response is
    not saved: the transcript ends with the question. *)
Theorem run_aborted_at_once (w : world) (question : str) (st : State)
    (response : Response) :
  messages_create w (trace st) (MoreSpec.chosen_prompt st)
    (get_messages (memory (MoreSpec.asked question st)))
  = ModelResponds response ->
  stop_reason response <> u "end_turn" ->
  stop_reason response <> u "tool_use" ->
  AgentLoop.run w question st
  = (Ok AgentLoop.FALLBACK_MESSAGE,
     {| memory := add_user_message question (memory st);
        registry := registry st;
        trace := trace st ++ [MoreSpec.first_call question st] |}).
Proof.
  intros Hmodel Hend Htool. rewrite run_unfold.
  cbn [AgentLoop.MAX_ITERATIONS seq AgentLoop.steps].
  cbv beta iota delta [AgentLoop.create bind get_state network ret with_memory].
  cbn [memory trace registry MoreSpec.asked].
  cbn [MoreSpec.asked memory] in Hmodel. rewrite Hmodel. cbv beta iota.
  rewrite (eqb_neq _ _ Hend), (eqb_neq _ _ Htool). reflexivity.
Qed.

Lemma run_aborted_at_once_witness :
  AgentLoop.run ScraperSpec.sample_world (u "What is new in fusion energy?")
    ScraperSpec.initial_state
  = (Ok AgentLoop.FALLBACK_MESSAGE,
     {| memory := add_user_message (u "What is new in fusion energy?")
                    (memory ScraperSpec.initial_state);
        registry := registry ScraperSpec.initial_state;
        trace := trace ScraperSpec.initial_state
                 ++ [MoreSpec.first_call (u "What is new in fusion energy?")
                       ScraperSpec.initial_state] |}).
Proof.
  apply (run_aborted_at_once ScraperSpec.sample_world
           (u "What is new in fusion energy?") ScraperSpec.initial_state
           {| stop_reason := u "max_tokens"; response_content := [] |});
    [reflexivity | vm_compute; discriminate | vm_compute; discriminate].
Defined.

(** X16.  When the model backend raises on the first request, [run] raises
    the same error; the question has been saved before, so the transcript
    then ends with a question that has no answer. *)
Theorem run_model_error (w : world) (question : str) (st : State) (msg : str) :
  messages_create w (trace st) (MoreSpec.chosen_prompt st)
    (get_messages (memory (MoreSpec.asked question st)))
  = ModelRaises msg ->
  AgentLoop.run w question st
  = (Raise (APIError msg),
     {| memory := add_user_message question (memory st);
        registry := registry st;
        trace := trace st ++ [MoreSpec.first_call question st] |}).
Proof.
  intros Hmodel. rewrite run_unfold.
  cbn [AgentLoop.MAX_ITERATIONS seq AgentLoop.steps].
  cbv beta iota delta [AgentLoop.create bind get_state network ret with_memory].
  cbn [memory trace registry MoreSpec.asked].
  cbn [MoreSpec.asked memory] in Hmodel. rewrite Hmodel. reflexivity.
Qed.

Lemma run_model_error_witness :
  AgentLoop.run MoreSpec.model_down_world (u "What is new in fusion energy?")
    ScraperSpec.initial_state
  = (Raise (APIError (u "overloaded")),
     {| memory := add_user_message (u "What is new in fusion energy?")
                    (memory ScraperSpec.initial_state);
        registry := registry ScraperSpec.initial_state;
        trace := trace ScraperSpec.initial_state
                 ++ [MoreSpec.first_call (u "What is new in fusion energy?")
                       ScraperSpec.initial_state] |}).
Proof.
  apply (run_model_error MoreSpec.model_down_world
           (u "What is new in fusion energy?") ScraperSpec.initial_state
           (u "overloaded")).
  reflexivity.
Defined.

(** X17.  Whatever the model and the network do, a string that [run]
    returns is never empty. *)
Theorem run_never_returns_empty (w : world) (question : str) (st : State)
    (out : str) (st' : State) :
  AgentLoop.run w question st = (Ok out, st') -> out <> [].
Proof. rewrite run_unfold. apply steps_nonempty. Qed.

Lemma run_never_returns_empty_witness :
  AgentLoop.run MoreSpec.answer_world (u "What is the capital of France?")
    ScraperSpec.initial_state
  = (Ok (u "Paris is the capital of France."),
     snd (AgentLoop.run MoreSpec.answer_world
            (u "What is the capital of France?") ScraperSpec.initial_state))
  /\ u "Paris is the capital of France." <> [].
Proof.
  split; [reflexivity|].
  apply (run_never_returns_empty MoreSpec.answer_world
           (u "What is the capital of France?") ScraperSpec.initial_state
           (u "Paris is the capital of France.")
           (snd (AgentLoop.run MoreSpec.answer_world
                   (u "What is the capital of France?")
                   ScraperSpec.initial_state))).
  reflexivity.
Defined.

(** X18.  In every world, also when a tool or the model raises, one [run]
    sends at most ten requests to the model. *)
Theorem run_at_most_ten_model_calls (w : world) (question : str) (st : State) :
  LoopSpec.model_calls (trace (snd (AgentLoop.run w question st)))
  <= LoopSpec.model_calls (trace st) + 10.
Proof.
  rewrite run_unfold.
  destruct (steps_effects w (MoreSpec.chosen_prompt st)
              (seq 1 AgentLoop.MAX_ITERATIONS) (MoreSpec.asked question st))
    as (evs & suffix & -> & _ & Hc & _).
  cbn [MoreSpec.asked trace]. rewrite model_calls_app.
  rewrite length_seq in Hc. unfold AgentLoop.MAX_ITERATIONS in Hc. lia.
Qed.

(** X19.  The prompt is chosen once per [run]: every request that a run
    sends to the model carries the same system prompt, the follow-up prompt
    when the memory held an assistant message at the start and the
    researcher prompt otherwise. *)
Theorem run_uses_one_prompt (w : world) (question : str) (st : State) :
  exists evs,
    trace (snd (AgentLoop.run w question st)) = trace st ++ evs
    /\ Forall (MoreSpec.prompt_is
                 (if is_followup (memory st) then AgentLoop.FOLLOWUP_PROMPT
                  else AgentLoop.RESEARCHER_PROMPT)) evs.
Proof.
  rewrite run_unfold.
  destruct (steps_effects w (MoreSpec.chosen_prompt st)
              (seq 1 AgentLoop.MAX_ITERATIONS) (MoreSpec.asked question st))
    as (evs & suffix & E & Hp & _ & _).
  exists evs. split; [exact E | exact Hp].
Qed.

(** X20.  [run] never drops or rewrites history: the transcript after a
    run, however the run ends, is the transcript before it, then the
    question, then what the run added. *)
Theorem run_keeps_history (w : world) (question : str) (st : State) :
  exists suffix,
    get_messages (memory (snd (AgentLoop.run w question st)))
    = get_messages (memory st)
      ++ {| role := user; content := PlainText question |} :: suffix.
Proof.
  rewrite run_unfold.
  destruct (steps_effects w (MoreSpec.chosen_prompt st)
              (seq 1 AgentLoop.MAX_ITERATIONS) (MoreSpec.asked question st))
    as (evs & suffix & _ & _ & _ & Hm).
  exists suffix. unfold get_messages. rewrite Hm.
  cbn [MoreSpec.asked memory add_user_message _messages].
  now rewrite <- app_assoc.
Qed.

(** ** Steps that run tools *)

Section ToolStepFacts.

Import LoopSpec MoreSpec.

Variable w : world.

(** Blocks that are not tool requests are passed over. *)
Lemma execute_blocks_skip pre rest st :
  request_ids pre = [] ->
  AgentLoop.execute_blocks w (pre ++ rest) st = AgentLoop.execute_blocks w rest st.
Proof.
  induction pre as [|block pre IH]; intros H; [reflexivity|].
  destruct block as [text|id name input|type]; simpl in *;
    [now apply IH | discriminate | now apply IH].
Qed.

(** The relation [executed_in_order] describes a run of the loop of
    [_execute_tools] that returns. *)
Lemma executed_in_order_run st content results st1 :
  executed_in_order w st content results st1 ->
  AgentLoop.execute_blocks w content st = (Ok results, st1)
  /\ memory st1 = memory st
  /\ model_calls (trace st1) = model_calls (trace st).
Proof.
  induction 1 as [st|st id name input output st1 rest results st2 Hx _ IH
                  |st text rest results st2 _ IH|st type rest results st2 _ IH].
  - repeat split.
  - destruct IH as (E & Hm & Ht).
    pose proof (execute_memory w name input st) as Hm1.
    destruct (execute_trace w name input st) as (evs & Et & Hno).
    rewrite Hx in Hm1, Et. cbn [snd] in Hm1, Et.
    split; [|split].
    + simpl. rewrite (bind_ok _ _ _ _ _ Hx), (bind_ok _ _ _ _ _ E). reflexivity.
    + congruence.
    + rewrite Ht, Et, model_calls_app, (model_calls_none evs Hno). lia.
  - exact IH.
  - exact IH.
Qed.

End ToolStepFacts.

(** X21.  When the first tool request of the first response is a search
    and the search backend fails on it, [run] raises the error of the
    search: the response has been saved and the search counted, but no tool
    result is appended and the requests after it are not run, so the
    transcript ends with a request for tools that has no result. *)
Theorem run_search_failure (w : world) (question : str) (st : State)
    (response : Response) (pre : list ContentBlock) (id : str)
    (input : ToolInput) (rest : list ContentBlock) :
  messages_create w (trace st) (MoreSpec.chosen_prompt st)
    (get_messages (memory (MoreSpec.asked question st)))
  = ModelResponds response ->
  stop_reason response = u "tool_use" ->
  response_content response = pre ++ ToolUseBlock id (u "web_search") input :: rest ->
  LoopSpec.request_ids pre = [] ->
  MoreSpec.post_fails
    (requests_post w (trace st ++ [MoreSpec.first_call question st])
       (MoreSpec.query_of input) (MoreSpec.num_results_of input)) = true ->
  exists e,
    AgentLoop.run w question st
    = (Raise (RequestsError e),
       {| memory := add_assistant_message (response_content response)
                      (add_user_message question (memory st));
          registry :=
            {| _search_count := _search_count (registry st) + 1;
               _scrape_count := _scrape_count (registry st);
               searcher_query := MoreSpec.query_of input;
               searcher_num_results := MoreSpec.num_results_of input |};
          trace := (trace st ++ [MoreSpec.first_call question st])
                   ++ [SearchPost (MoreSpec.query_of input)
                         (MoreSpec.num_results_of input)] |}).
Proof.
  intros Hmodel Hstop Hcontent Hpre Hfail. rewrite run_unfold.
  cbn [AgentLoop.MAX_ITERATIONS seq AgentLoop.steps].
  cbv beta iota delta [AgentLoop.create bind get_state network ret with_memory
                       AgentLoop.act_and_observe AgentLoop._execute_tools].
  cbn [memory trace registry MoreSpec.asked].
  cbn [MoreSpec.asked memory] in Hmodel. rewrite Hmodel. cbv beta iota.
  rewrite Hstop.
  change (PyStr.eqb (u "tool_use") (u "end_turn")) with false.
  change (PyStr.eqb (u "tool_use") (u "tool_use")) with true.
  cbv beta iota. cbn [memory trace registry].
  rewrite Hcontent. rewrite (execute_blocks_skip w pre _ _ Hpre).
  cbn [AgentLoop.execute_blocks]. unfold Registry.execute.
  change (PyStr.eqb (u "web_search") (u "web_search")) with true.
  cbv beta iota zeta delta [bind with_registry WebSearch.search_and_format
                            WebSearch.web_search network Registry.count_search].
  cbn [trace memory registry _search_count _scrape_count].
  unfold MoreSpec.first_call, MoreSpec.asked, MoreSpec.query_of,
    MoreSpec.num_results_of in *. cbn [memory] in *.
  destruct (requests_post w _ _ _) as [e|status data]; cbn in Hfail.
  - exists e. reflexivity.
  - rewrite Hfail. eexists. reflexivity.
Qed.

Lemma run_search_failure_witness :
  exists e,
    AgentLoop.run MoreSpec.search_down_world (u "What is new in fusion energy?")
      ScraperSpec.initial_state
    = (Raise (RequestsError e),
       {| memory := add_assistant_message LoopSpec.two_requests
                      (add_user_message (u "What is new in fusion energy?")
                         (memory ScraperSpec.initial_state));
          registry :=
            {| _search_count := _search_count (registry ScraperSpec.initial_state) + 1;
               _scrape_count := _scrape_count (registry ScraperSpec.initial_state);
               searcher_query := u "fusion energy";
               searcher_num_results := 5 |};
          trace := (trace ScraperSpec.initial_state
                    ++ [MoreSpec.first_call (u "What is new in fusion energy?")
                          ScraperSpec.initial_state])
                   ++ [SearchPost (u "fusion energy") 5] |}).
Proof.
  apply (run_search_failure MoreSpec.search_down_world
           (u "What is new in fusion energy?") ScraperSpec.initial_state
           {| stop_reason := u "tool_use";
              response_content := LoopSpec.two_requests |}
           [TextBlock (u "Let me look that up.")] (u "toolu_01")
           {| input_query := Some (u "fusion energy"); input_num_results := None;
              input_url := None |}
           [ToolUseBlock (u "toolu_02") (u "web_scraper")
              {| input_query := None; input_num_results := None;
                 input_url := Some (u "https://example.com/a") |}]);
    reflexivity.
Defined.

Section TwoStepFacts.

Import LoopSpec MoreSpec.

Variable w : world.

Lemma steps_end_turn system step rest st response :
  messages_create w (trace st) system (get_messages (memory st))
  = ModelResponds response ->
  stop_reason response = u "end_turn" ->
  AgentLoop.steps w system (step :: rest) st
  = (Ok (if truthy (AgentLoop._extract_text response)
         then AgentLoop._extract_text response
         else AgentLoop.FALLBACK_MESSAGE),
     {| memory := add_assistant_message (response_content response) (memory st);
        registry := registry st;
        trace := trace st ++ [ModelCall system (get_messages (memory st))] |}).
Proof.
  intros Hmodel Hstop. cbn [AgentLoop.steps].
  cbv beta iota delta [AgentLoop.create bind get_state network ret with_memory].
  cbn [memory trace registry]. rewrite Hmodel. cbv beta iota.
  rewrite Hstop. change (PyStr.eqb (u "end_turn") (u "end_turn")) with true.
  reflexivity.
Qed.

Lemma steps_tool_use system step rest st response results st1 :
  messages_create w (trace st) system (get_messages (memory st))
  = ModelResponds response ->
  stop_reason response = u "tool_use" ->
  AgentLoop.execute_blocks w (response_content response)
    (after_response system response st) = (Ok results, st1) ->
  AgentLoop.steps w system (step :: rest) st
  = AgentLoop.steps w system rest (observed results st1).
Proof.
  intros Hmodel Hstop E. unfold after_response in E. cbn [AgentLoop.steps].
  cbv beta iota delta [AgentLoop.create bind get_state network ret
                       AgentLoop.act_and_observe with_memory
                       AgentLoop._execute_tools].
  cbn [memory trace registry].
  rewrite Hmodel. cbv beta iota. rewrite Hstop.
  change (PyStr.eqb (u "tool_use") (u "end_turn")) with false.
  change (PyStr.eqb (u "tool_use") (u "tool_use")) with true.
  cbv beta iota. cbn [memory trace registry]. rewrite E. reflexivity.
Qed.

End TwoStepFacts.

(** X22.  One round of tools, then an answer.  When the model asks for
    tools on the first request, the tools run and return, and the model
    answers the second request, which carries the question, the first
    response and the tool results, then [run] returns the text of that
    answer after exactly two model calls, and the transcript has grown by
    four messages: question, request for tools, results, answer. *)
Theorem run_search_then_answer (w : world) (question : str) (st : State)
    (r1 : Response) (results : list ToolResult) (st1 : State) (r2 : Response) :
  messages_create w (trace st) (MoreSpec.chosen_prompt st)
    (get_messages (memory (MoreSpec.asked question st)))
  = ModelResponds r1 ->
  stop_reason r1 = u "tool_use" ->
  LoopSpec.executed_in_order w
    (LoopSpec.after_response (MoreSpec.chosen_prompt st) r1
       (MoreSpec.asked question st))
    (response_content r1) results st1 ->
  messages_create w (trace st1) (MoreSpec.chosen_prompt st)
    (get_messages (memory st)
     ++ [{| role := user; content := PlainText question |};
         {| role := assistant; content := Blocks (response_content r1) |};
         {| role := user; content := ToolResults results |}])
  = ModelResponds r2 ->
  stop_reason r2 = u "end_turn" ->
  exists st',
    AgentLoop.run w question st
    = (Ok (if truthy (AgentLoop._extract_text r2)
           then AgentLoop._extract_text r2
           else AgentLoop.FALLBACK_MESSAGE), st')
    /\ get_messages (memory st')
       = get_messages (memory st)
         ++ [{| role := user; content := PlainText question |};
             {| role := assistant; content := Blocks (response_content r1) |};
             {| role := user; content := ToolResults results |};
             {| role := assistant; content := Blocks (response_content r2) |}]
    /\ LoopSpec.model_calls (trace st') = LoopSpec.model_calls (trace st) + 2.
Proof.
  intros Hm1 Hs1 Hx Hm2 Hs2.
  destruct (executed_in_order_run w _ _ _ _ Hx) as (E & Hmem & Hcalls).
  assert (Hmsgs : get_messages (memory (LoopSpec.observed results st1))
                  = get_messages (memory st)
                    ++ [{| role := user; content := PlainText question |};
                        {| role := assistant;
                           content := Blocks (response_content r1) |};
                        {| role := user; content := ToolResults results |}]).
  { unfold LoopSpec.observed. cbn [memory]. rewrite Hmem.
    unfold LoopSpec.after_response, MoreSpec.asked, get_messages,
      add_tool_results, add_assistant_message, add_user_message.
    cbn [memory _messages]. now rewrite <- !app_assoc. }
  rewrite run_unfold. cbn [AgentLoop.MAX_ITERATIONS seq].
  rewrite (steps_tool_use w (MoreSpec.chosen_prompt st) 1 _
             (MoreSpec.asked question st) r1 results st1 Hm1 Hs1 E).
  assert (Hm2' : messages_create w (trace (LoopSpec.observed results st1))
                   (MoreSpec.chosen_prompt st)
                   (get_messages (memory (LoopSpec.observed results st1)))
                 = ModelResponds r2)
    by (rewrite Hmsgs; exact Hm2).
  rewrite (steps_end_turn w (MoreSpec.chosen_prompt st) 2 _
             (LoopSpec.observed results st1) r2 Hm2' Hs2).
  eexists. split; [reflexivity|]. split.
  - cbn [memory]. unfold get_messages in *.
    cbn [add_assistant_message _messages]. rewrite Hmsgs.
    now rewrite <- app_assoc.
  - cbn [trace LoopSpec.observed]. rewrite model_calls_app, Hcalls.
    unfold LoopSpec.after_response. cbn [trace MoreSpec.asked].
    rewrite model_calls_app. unfold LoopSpec.model_calls at 2 3. simpl. lia.
Qed.

Lemma run_search_then_answer_witness :
  exists results st',
    AgentLoop.run MoreSpec.search_then_answer_world
      (u "What is the capital of France?") ScraperSpec.initial_state
    = (Ok (if truthy (AgentLoop._extract_text
                        {| stop_reason := u "end_turn";
                           response_content := [TextBlock (u "Paris.")] |})
           then AgentLoop._extract_text
                  {| stop_reason := u "end_turn";
                     response_content := [TextBlock (u "Paris.")] |}
           else AgentLoop.FALLBACK_MESSAGE), st')
    /\ get_messages (memory st')
       = get_messages (memory ScraperSpec.initial_state)
         ++ [{| role := user;
                content := PlainText (u "What is the capital of France?") |};
             {| role := assistant;
                content := Blocks
                  [ToolUseBlock (u "toolu_01") (u "web_search")
                     {| input_query := Some (u "capital of France");
                        input_num_results := None; input_url := None |}] |};
             {| role := user; content := ToolResults results |};
             {| role := assistant; content := Blocks [TextBlock (u "Paris.")] |}]
    /\ LoopSpec.model_calls (trace st')
       = LoopSpec.model_calls (trace ScraperSpec.initial_state) + 2.
Proof.
  eexists.
  eapply (run_search_then_answer MoreSpec.search_then_answer_world
            (u "What is the capital of France?") ScraperSpec.initial_state
            {| stop_reason := u "tool_use";
               response_content :=
                 [ToolUseBlock (u "toolu_01") (u "web_search")
                    {| input_query := Some (u "capital of France");
                       input_num_results := None; input_url := None |}] |}
            _ _
            {| stop_reason := u "end_turn";
               response_content := [TextBlock (u "Paris.")] |}).
  - reflexivity.
  - reflexivity.
  - eapply LoopSpec.executed_tool; [lazy; reflexivity | apply LoopSpec.executed_nil].
  - reflexivity.
  - reflexivity.
Defined.

(** X23.  A session reset empties the transcript and zeroes both counters,
    whatever state the session was in, and leaves the record of the
    network alone.  The next run then starts with the researcher prompt,
    its transcript begins with the new question, and the roles in it
    alternate however that run ends: the reset repairs a transcript that
    an aborted or exhausted run has left ending with a user message. *)
Theorem new_session_restores_alternation (w : world) (question : str) (st : State) :
  let fresh := snd (AgentLoop.new_session st) in
  get_messages (memory fresh) = []
  /\ is_followup (memory fresh) = false
  /\ _search_count (registry fresh) = 0
  /\ _scrape_count (registry fresh) = 0
  /\ trace fresh = trace st
  /\ MoreSpec.chosen_prompt fresh = AgentLoop.RESEARCHER_PROMPT
  /\ LoopSpec.well_formed
       (get_messages (memory (snd (AgentLoop.run w question fresh)))) = true
  /\ exists suffix,
       get_messages (memory (snd (AgentLoop.run w question fresh)))
       = {| role := user; content := PlainText question |} :: suffix.
Proof.
  cbv zeta. repeat split.
  - now apply run_keeps_alternation.
  - rewrite run_unfold.
    destruct (steps_effects w
                (MoreSpec.chosen_prompt (snd (AgentLoop.new_session st)))
                (seq 1 AgentLoop.MAX_ITERATIONS)
                (MoreSpec.asked question (snd (AgentLoop.new_session st))))
      as (evs & suffix & _ & _ & _ & Hm).
    exists suffix. unfold get_messages. rewrite Hm. reflexivity.
Qed.

(** X24.  A question put to an alternating transcript that is empty or
    ends with an assistant message leaves an alternating transcript, in
    every world and however the run ends: with an answer, with the
    fallback message, or with an error of the model or of a tool. *)
Theorem run_preserves_alternation (w : world) (question : str) (st : State) :
  LoopSpec.well_formed (get_messages (memory st)) = true ->
  LoopSpec.next_role user (get_messages (memory st)) = user ->
  LoopSpec.well_formed
    (get_messages (memory (snd (AgentLoop.run w question st)))) = true.
Proof. apply run_keeps_alternation. Qed.

Lemma run_preserves_alternation_witness :
  LoopSpec.well_formed
    (get_messages
       (memory (snd (AgentLoop.run MoreSpec.search_down_world
                       (u "What is new in fusion energy?")
                       ScraperSpec.initial_state)))) = true.
Proof.
  apply (run_preserves_alternation MoreSpec.search_down_world
           (u "What is new in fusion energy?") ScraperSpec.initial_state);
    reflexivity.
Defined.
